(** * voice-to-note: the transcript reshaping of the upload handlers

    A shallow embedding of the [/api/upload] handlers of [api/index.js] and
    [server/server.js], and of the history update of the dashboard's
    [handleUpload].  The provider payload is an untyped JavaScript value, so
    the handlers are written over a small model of JavaScript values with
    the property reads, optional chaining, [||], template literals and array
    methods that the handlers use. *)

From Stdlib Require Import List String Ascii Bool Arith ZArith Lia.
From Stdlib Require Import DecimalString DecimalPos DecimalZ.
Import ListNotations.

Set Warnings "-register-all".

Local Open Scope string_scope.
Local Open Scope list_scope.

(** ** Numbers of the runtime

    The handlers never compute with numbers: they test them ([||], [> 0]),
    print them (template literals) and pass them through.  The number type
    of the runtime is therefore an interface; [IntNumber] below is the
    instance on which concrete payloads are evaluated. *)

Class JSNumber (Num : Type) := {
  num_zero : Num;                         (* the literal 0 *)
  num_one : Num;                          (* ToNumber(true) *)
  num_nan : Num;                          (* ToNumber(undefined) *)
  num_of_nat : nat -> Num;                (* the length of an array or string *)
  num_truthy : Num -> bool;               (* ToBoolean: false on 0 and NaN *)
  num_gt_zero : Num -> bool;              (* n > 0 *)
  num_to_string : Num -> string;          (* Number::toString *)
  string_to_number : string -> Num;       (* StringToNumber *)
  num_gt_zero_of_nat :
    forall n, num_gt_zero (num_of_nat n) = negb (Nat.eqb n 0);
  num_gt_zero_nan : num_gt_zero num_nan = false;
  num_truthy_zero : num_truthy num_zero = false
}.

(** ** Values *)

Inductive value (Num : Type) : Type :=
| VUndefined
| VNull
| VBool (b : bool)
| VNum (n : Num)
| VStr (s : string)
| VArr (items : list (value Num))
| VObj (fields : list (string * value Num)).

Arguments VUndefined {Num}.
Arguments VNull {Num}.
Arguments VBool {Num} b.
Arguments VNum {Num} n.
Arguments VStr {Num} s.
Arguments VArr {Num} items.
Arguments VObj {Num} fields.

(** ** Exceptions and completions *)

Inductive exn : Type :=
| TypeError                      (* a read on undefined or null, a call of a non-function,
                                    an object that cannot be printed *)
| DeepgramError (message : string)   (* new Error(`Deepgram Error: ${error.message}`) *)
| FileError (message : string)       (* what fs.readFileSync or fs.unlinkSync throws *)
| Rejection (message : string).      (* what an awaited promise rejected with *)

Inductive completion (A : Type) : Type :=
| Normal (a : A)
| Throw (e : exn).

Arguments Normal {A} a.
Arguments Throw {A} e.

Definition bind {A B : Type} (r : completion A) (k : A -> completion B) : completion B :=
  match r with
  | Normal a => k a
  | Throw e => Throw e
  end.

Notation "x <- r ;; k" := (bind r (fun x => k))
  (at level 61, r at next level, right associativity).

(** [xs.map(f)] on an array, where [f] may throw: left to right, the first
    exception aborts the whole map. *)
Fixpoint map_completion {A B : Type} (f : A -> completion B) (xs : list A)
  : completion (list B) :=
  match xs with
  | [] => Normal []
  | x :: rest =>
      y <- f x ;;
      ys <- map_completion f rest ;;
      Normal (y :: ys)
  end.

Section JavaScript.

Context {Num : Type} {JSN : JSNumber Num}.

Definition is_nullish (v : value Num) : bool :=
  match v with
  | VUndefined | VNull => true
  | _ => false
  end.

(** ToBoolean *)
Definition truthy (v : value Num) : bool :=
  match v with
  | VUndefined | VNull => false
  | VBool b => b
  | VNum n => num_truthy n
  | VStr s => negb (String.eqb s "")
  | VArr _ | VObj _ => true
  end.

(** [a || b] on already evaluated operands (every right operand in the
    handlers is a literal). *)
Definition js_or (a b : value Num) : value Num := if truthy a then a else b.

(** The own property [k] of an object literal; the first binding of a key is
    the property's value. *)
Fixpoint lookup (k : string) (fields : list (string * value Num)) : value Num :=
  match fields with
  | [] => VUndefined
  | (k', v) :: rest => if String.eqb k k' then v else lookup k rest
  end.

(** The property [name] of a value that is neither undefined nor null, for
    the field names the handlers read.  None of them is a method of a
    prototype, so a value that is not an object with that key answers
    undefined; [length] is the one built-in property among them. *)
Definition prop (v : value Num) (name : string) : value Num :=
  match v with
  | VObj fields => lookup name fields
  | VArr items =>
      if String.eqb name "length"
      then VNum (num_of_nat (List.length items)) else VUndefined
  | VStr s =>
      if String.eqb name "length"
      then VNum (num_of_nat (String.length s)) else VUndefined
  | _ => VUndefined
  end.

Definition index_key (i : nat) : string :=
  NilZero.string_of_uint (Nat.to_uint i).

(** The element [i] of a value that is neither undefined nor null. *)
Definition item (v : value Num) (i : nat) : value Num :=
  match v with
  | VArr items => nth i items VUndefined
  | VObj fields => lookup (index_key i) fields
  | VStr s =>
      match String.get i s with
      | Some c => VStr (String c EmptyString)
      | None => VUndefined
      end
  | _ => VUndefined
  end.

(** [v.name] and [v[i]]: a read on undefined or null throws. *)
Definition get_name (v : value Num) (name : string) : completion (value Num) :=
  if is_nullish v then Throw TypeError else Normal (prop v name).

Definition get_index (v : value Num) (i : nat) : completion (value Num) :=
  if is_nullish v then Throw TypeError else Normal (item v i).

(** [v?.name] and [v?.[i]] *)
Definition opt_name (v : value Num) (name : string) : completion (value Num) :=
  if is_nullish v then Normal VUndefined else get_name v name.

Definition opt_index (v : value Num) (i : nat) : completion (value Num) :=
  if is_nullish v then Normal VUndefined else get_index v i.

(** Whether an object literal has the own property [name]. *)
Definition has_own (name : string) (fields : list (string * value Num)) : bool :=
  List.existsb (fun field => String.eqb name (fst field)) fields.

(** The first exception of a list of completions, or all their values. *)
Fixpoint all_normal {A : Type} (cs : list (completion A))
  : completion (list A) :=
  match cs with
  | [] => Normal []
  | c :: rest =>
      x <- c ;;
      xs <- all_normal rest ;;
      Normal (x :: xs)
  end.

(** ToString, as a template literal and [join] apply it.  An array prints
    as its [join()].  An object of a JSON payload prints through
    Object.prototype.toString, unless it has an own property [toString]:
    that one is found first, is not callable, and after [valueOf], which
    gives back the object, nothing is left but a TypeError. *)
Fixpoint to_string (v : value Num) : completion string :=
  match v with
  | VUndefined => Normal "undefined"
  | VNull => Normal "null"
  | VBool true => Normal "true"
  | VBool false => Normal "false"
  | VNum n => Normal (num_to_string n)
  | VStr s => Normal s
  | VArr items =>
      pieces <- all_normal
                  (List.map (fun x => match x with
                                      | VUndefined | VNull => Normal ""
                                      | _ => to_string x
                                      end) items) ;;
      Normal (String.concat "," pieces)
  | VObj fields =>
      if has_own "toString" fields then Throw TypeError
      else Normal "[object Object]"
  end.

(** [items.join(sep)]: undefined and null print as the empty string. *)
Definition join_item (v : value Num) : completion string :=
  if is_nullish v then Normal "" else to_string v.

Definition array_join (sep : string) (items : list (value Num))
  : completion string :=
  pieces <- map_completion join_item items ;;
  Normal (String.concat sep pieces).

(** ToNumber; an array or object reaches it through ToPrimitive, which for
    the values of a JSON payload ends in the same print, or TypeError. *)
Definition to_number (v : value Num) : completion Num :=
  match v with
  | VUndefined => Normal num_nan
  | VNull => Normal num_zero
  | VBool true => Normal num_one
  | VBool false => Normal num_zero
  | VNum n => Normal n
  | VStr s => Normal (string_to_number s)
  | VArr _ | VObj _ =>
      printed <- to_string v ;;
      Normal (string_to_number printed)
  end.

(** [v > 0] *)
Definition gt_zero (v : value Num) : completion bool :=
  n <- to_number v ;;
  Normal (num_gt_zero n).

(** [v.map(f)]: only an array has a callable [map]; a JSON value stored
    under the key [map] of an object is not a function. *)
Definition js_map (v : value Num) (f : value Num -> completion (value Num)) : completion (value Num) :=
  match v with
  | VArr items => items' <- map_completion f items ;; Normal (VArr items')
  | _ => Throw TypeError
  end.

End JavaScript.

(** ** The upload handlers *)

(** The two clock reads of a request: [Date.now()], in milliseconds, and
    [new Date().toISOString()]. *)
Record Clock : Type := {
  date_now : Z;
  iso_string : string
}.

(** [Date.now().toString()]: a time value is an integer below 1e21 in
    absolute value, which Number::toString prints in plain decimal. *)
Definition time_to_string (ms : Z) : string :=
  NilZero.string_of_int (Z.to_int ms).

(** The separator ['\n\n']: two line feeds. *)
Definition blank_line : string :=
  String (ascii_of_nat 10) (String (ascii_of_nat 10) EmptyString).

(** What the handler answers: [res.json(body)], or
    [res.status(code).send({ message, error })].  [body] is the object as
    the handler hands it to [res.json]; on the wire a property whose value
    is undefined is left out, and reads as undefined on the other side. *)
Inductive response (Num : Type) : Type :=
| Json (body : value Num)
| Status (code : nat) (message : string) (error : option exn).

Arguments Json {Num} body.
Arguments Status {Num} code message error.

(** The [{ result, error }] that [transcribeFile] resolves to; [error] is
    held by its [message].  A call that rejects is left out. *)
Record Reply (Num : Type) : Type := {
  reply_result : value Num;
  reply_error : option string
}.

Arguments reply_result {Num} r.
Arguments reply_error {Num} r.

Section Handlers.

Context {Num : Type} {JSN : JSNumber Num}.

(** The object literal [{ speaker, text }]. *)
Definition utterance (speaker : string) (text : value Num) : value Num :=
  VObj [("speaker", VStr speaker); ("text", text)].

(** [xs.join(sep)] on the array that a [map] returned. *)
Definition js_join (v : value Num) (sep : string) : completion string :=
  match v with
  | VArr items => array_join sep items
  | _ => Throw TypeError
  end.

(** [result.results.channels[0].alternatives[0]] *)
Definition alternative0 (result : value Num) : completion (value Num) :=
  results <- get_name result "results" ;;
  channels <- get_name results "channels" ;;
  channel <- get_index channels 0 ;;
  alternatives <- get_name channel "alternatives" ;;
  get_index alternatives 0.

(** [p => ({ speaker: `Speaker ${p.speaker}`,
             text: p.sentences.map(s => s.text).join(' ') })] *)
Definition paragraph_utterance (p : value Num) : completion (value Num) :=
  speaker <- get_name p "speaker" ;;
  label <- to_string speaker ;;
  sentences <- get_name p "sentences" ;;
  texts <- js_map sentences (fun s => get_name s "text") ;;
  text <- js_join texts " " ;;
  Normal (utterance ("Speaker " ++ label) (VStr text)).

(** [...alternatives[0].paragraphs?.paragraphs || []] *)
Definition read_paragraphs (result : value Num) : completion (value Num) :=
  alternative <- alternative0 result ;;
  wrapper <- get_name alternative "paragraphs" ;;
  sequence <- opt_name wrapper "paragraphs" ;;
  Normal (js_or sequence (VArr [])).

(** The utterances of both handlers: the ternary of [api/index.js] and the
    [if]/[else] of [server/server.js] are the same computation. *)
Definition read_utterances (result : value Num) : completion (value Num) :=
  paragraphs <- read_paragraphs result ;;
  len <- get_name paragraphs "length" ;;
  positive <- gt_zero len ;;
  if (positive : bool)
  then js_map paragraphs paragraph_utterance
  else
    alternative <- alternative0 result ;;
    transcript <- get_name alternative "transcript" ;;
    Normal (VArr [utterance "Speaker" transcript]).

(** [u => `[${u.speaker}]: ${u.text}`] *)
Definition utterance_line (u : value Num) : completion (value Num) :=
  speaker <- get_name u "speaker" ;;
  label <- to_string speaker ;;
  text <- get_name u "text" ;;
  printed <- to_string text ;;
  Normal (VStr ("[" ++ label ++ "]: " ++ printed)).

(** [utterances.map(u => ...).join('\n\n')] *)
Definition full_transcript (utterances : value Num) : completion string :=
  lines <- js_map utterances utterance_line ;;
  js_join lines blank_line.

(** [alternatives.summaries?.[0]?.summary || sentinel] *)
Definition read_summary (alternatives : value Num) (sentinel : string)
  : completion (value Num) :=
  summaries <- get_name alternatives "summaries" ;;
  first <- opt_index summaries 0 ;;
  summary <- opt_name first "summary" ;;
  Normal (js_or summary (VStr sentinel)).

(** [result.metadata?.duration || 0] *)
Definition read_duration (result : value Num) : completion (value Num) :=
  metadata <- get_name result "metadata" ;;
  duration <- opt_name metadata "duration" ;;
  Normal (js_or duration (VNum num_zero)).

(** [result.metadata?.model_info?.name || "nova-2"] *)
Definition read_model (result : value Num) : completion (value Num) :=
  metadata <- get_name result "metadata" ;;
  model_info <- opt_name metadata "model_info" ;;
  name <- opt_name model_info "name" ;;
  Normal (js_or name (VStr "nova-2")).

Definition api_sentinel : string := "Summary not available.".

Definition api_bullets : string :=
  "Key insights are included in the summary above.".

(** [api/index.js], lines 33 to 52: from the provider's result to
    [transcriptionData]. *)
Definition api_normalize (result : value Num) (originalname : string)
    (clock : Clock) : completion (value Num) :=
  utterances <- read_utterances result ;;
  fullTranscript <- full_transcript utterances ;;
  alternatives <- alternative0 result ;;
  summaryResult <- read_summary alternatives api_sentinel ;;
  duration <- read_duration result ;;
  modelUsed <- read_model result ;;
  Normal (VObj
    [("id", VStr (time_to_string (date_now clock)));
     ("fileName", VStr originalname);
     ("transcript", VStr fullTranscript);
     ("utterances", utterances);
     ("summary", summaryResult);
     ("bullets", VStr api_bullets);
     ("metadata", VObj [("duration", duration);
                        ("model", modelUsed);
                        ("processedAt", VStr (iso_string clock))])]).

(** What both handlers do with the provider's reply inside their [try]. *)
Definition check_reply (reply : Reply Num) : completion (value Num) :=
  match reply_error reply with
  | Some message => Throw (DeepgramError ("Deepgram Error: " ++ message))
  | None => Normal (reply_result reply)
  end.

(** The [catch] of both handlers. *)
Definition respond (body : completion (value Num)) : response Num :=
  match body with
  | Normal data => Json data
  | Throw e => Status 500 "Error processing audio" (Some e)
  end.

(** [app.post('/api/upload', ...)] of [api/index.js]; [file] is
    [req.file.originalname] when a file was uploaded. *)
Definition api_upload (file : option string) (reply : Reply Num)
    (clock : Clock) : response Num :=
  match file with
  | None => Status 400 "No file uploaded" None
  | Some originalname =>
      respond (result <- check_reply reply ;;
               api_normalize result originalname clock)
  end.

Definition server_sentinel : string :=
  "Summary not available for this audio length or quality.".

Definition server_bullets : string :=
  "Key insights are included in the summary above. Speaker labeling is active in the full transcript.".

(** [server/server.js], lines 69 to 100: the body of its [res.json]. *)
Definition server_normalize (result : value Num) : completion (value Num) :=
  utterances <- read_utterances result ;;
  fullTranscript <- full_transcript utterances ;;
  alternative <- alternative0 result ;;
  summaryResult <- read_summary alternative server_sentinel ;;
  Normal (VObj
    [("transcript", VStr fullTranscript);
     ("utterances", utterances);
     ("summary", summaryResult);
     ("bullets", VStr server_bullets)]).

(** [app.post('/api/upload', ...)] of [server/server.js], on a disk that
    does not fail and for a call of the provider that resolves:
    [fs.readFileSync] and [fs.unlinkSync] return, and the [await] gives
    [reply]. *)
Definition server_upload (file : option string) (reply : Reply Num)
  : response Num :=
  match file with
  | None => Status 400 "No file uploaded" None
  | Some _ =>
      respond (result <- check_reply reply ;; server_normalize result)
  end.

(** What the two file-system calls of the handler do with the stored
    upload: each returns, or throws with a message. *)
Record Disk : Type := {
  read_error : option string;      (* fs.readFileSync(filePath) *)
  unlink_error : option string     (* fs.unlinkSync(filePath) *)
}.

Definition fs_call (failure : option string) : completion unit :=
  match failure with
  | Some message => Throw (FileError message)
  | None => Normal tt
  end.

(** How the awaited call of [transcribeFile] ends: the promise resolves to
    a reply, or it rejects and the [await] throws. *)
Inductive Call : Type :=
| Resolved (reply : Reply Num)
| Rejected (message : string).

Definition await (call : Call) : completion (Reply Num) :=
  match call with
  | Resolved reply => Normal reply
  | Rejected message => Throw (Rejection message)
  end.

(** The [try] block of [server/server.js] after the test of [req.file], in
    the order of the source: the file is read for the provider, the call is
    awaited, the reply is checked and reshaped, the file is removed, the
    body is answered.  The second component tells whether [fs.unlinkSync]
    was reached and returned, that is, whether the stored upload is gone. *)
Definition server_try (disk : Disk) (call : Call)
  : completion (value Num) * bool :=
  match fs_call (read_error disk) with
  | Throw e => (Throw e, false)
  | Normal _ =>
      match (reply <- await call ;;
             result <- check_reply reply ;;
             server_normalize result) with
      | Throw e => (Throw e, false)
      | Normal body =>
          match fs_call (unlink_error disk) with
          | Throw e => (Throw e, false)
          | Normal _ => (Normal body, true)
          end
      end
  end.

(** [app.post('/api/upload', ...)] of [server/server.js] with its disk and
    the call of the provider. *)
Definition server_upload_fs (file : option string) (disk : Disk)
    (call : Call) : response Num * bool :=
  match file with
  | None => (Status 400 "No file uploaded" None, false)
  | Some _ =>
      let (outcome, removed) := server_try disk call in
      (respond outcome, removed)
  end.

End Handlers.

(** ** The dashboard's history *)

Section Dashboard.

Context {Num : Type}.

(** Writing the property [k] of an object under construction: a key that is
    already there keeps its place and takes the new value. *)
Fixpoint set_field (k : string) (v : value Num)
    (fields : list (string * value Num)) : list (string * value Num) :=
  match fields with
  | [] => [(k, v)]
  | (k', v') :: rest =>
      if String.eqb k k' then (k, v) :: rest
      else (k', v') :: set_field k v rest
  end.

Definition string_items (s : string) : list (value Num) :=
  List.map (fun c => VStr (String c EmptyString)) (list_ascii_of_string s).

(** The own enumerable properties that [{ ...v }] copies. *)
Definition spread (v : value Num) : list (string * value Num) :=
  match v with
  | VObj fields => fields
  | VArr items =>
      List.combine (List.map index_key (List.seq 0 (List.length items))) items
  | VStr s =>
      List.combine (List.map index_key (List.seq 0 (String.length s)))
                   (string_items s)
  | _ => []
  end.

(** [{ ...response.data, id: Date.now().toString(), fileName: file.name }] *)
Definition new_result (data : value Num) (file_name : string) (clock : Clock)
  : value Num :=
  VObj (set_field "fileName" (VStr file_name)
         (set_field "id" (VStr (time_to_string (date_now clock)))
            (spread data))).

(** [prev => [newResult, ...prev].slice(0, 20)] *)
Definition capped_history (newResult : value Num) (prev : list (value Num))
  : list (value Num) :=
  List.firstn 20 (newResult :: prev).

(** [prev => [response.data, ...prev]], the dashboards that keep everything. *)
Definition unbounded_history (data : value Num) (prev : list (value Num))
  : list (value Num) :=
  data :: prev.

(** The part of the dashboard's state that an upload writes. *)
Record Dashboard : Type := {
  shown : option (value Num);
  history : list (value Num);
  error : option string
}.

(** [handleUpload] of the dashboard that caps its history.  [file] is
    [file.name] when a file is selected; axios rejects every answer that is
    not a 2xx, and the [catch] only sets the error message. *)
Definition handleUpload (file : option string) (answer : response Num)
    (clock : Clock) (state : Dashboard) : Dashboard :=
  match file with
  | None => state
  | Some file_name =>
      match answer with
      | Json data =>
          let newResult := new_result data file_name clock in
          {| shown := Some newResult;
             history := capped_history newResult (history state);
             error := None |}
      | Status _ message _ =>
          {| shown := shown state;
             history := history state;
             error := Some (if String.eqb message ""
                            then "Error processing file." else message) |}
      end
  end.

End Dashboard.

Arguments Dashboard Num : clear implicits.

(** ** What a consumer reads back *)

Section Reading.

Context {Num : Type} {JSN : JSNumber Num}.

(** [Object.keys(v)] of an object literal. *)
Definition keys (v : value Num) : list string :=
  match v with
  | VObj fields => List.map fst fields
  | _ => []
  end.

(** What JavaScript prints for a primitive value: the words of ToString,
    apart from the code's [to_string]. *)
Definition primitive_text (v : value Num) : option string :=
  match v with
  | VUndefined => Some "undefined"
  | VNull => Some "null"
  | VBool true => Some "true"
  | VBool false => Some "false"
  | VNum n => Some (num_to_string n)
  | VStr s => Some s
  | VArr _ | VObj _ => None
  end.

(** The blank line between two entries of a transcript: two line feeds. *)
Definition two_line_feeds : string := String "010" (String "010" EmptyString).

(** An entry of the transcript as the spec words it:
    ["[" + speaker + "]: " + text], where a text that is not a string is
    printed as JavaScript prints it. *)
Definition formatted (u : value Num) (line : string) : Prop :=
  exists speaker printed,
    prop u "speaker" = VStr speaker /\
    to_string (prop u "text") = Normal printed /\
    (forall p, primitive_text (prop u "text") = Some p -> printed = p) /\
    line = ("[" ++ speaker ++ "]: " ++ printed)%string.

(** The strings of [s.text] and of [p.sentences], when the paragraph has the
    shape of the provider's data model: an object whose [sentences] is an
    array of objects with a string [text]. *)
Definition sentence_text (s : value Num) : option string :=
  match s with
  | VObj fields =>
      match lookup "text" fields with
      | VStr t => Some t
      | _ => None
      end
  | _ => None
  end.

Fixpoint all_texts (sentences : list (value Num)) : option (list string) :=
  match sentences with
  | [] => Some []
  | s :: rest =>
      match sentence_text s, all_texts rest with
      | Some t, Some ts => Some (t :: ts)
      | _, _ => None
      end
  end.

Definition sentence_texts (p : value Num) : option (list string) :=
  match p with
  | VObj fields =>
      match lookup "sentences" fields with
      | VArr sentences => all_texts sentences
      | _ => None
      end
  | _ => None
  end.

(** [alternatives[0].summaries?.[0]?.summary], read without the exceptions. *)
Definition summary_of (alternative : value Num) : value Num :=
  prop (item (prop alternative "summaries") 0) "summary".

(** [result.metadata?.duration], read without the exceptions. *)
Definition duration_of (result : value Num) : value Num :=
  prop (prop result "metadata") "duration".

(** [alternatives[0]] is missing: a step of the path throws, or the path
    ends on undefined or null. *)
Definition path_absent (result : value Num) : Prop :=
  match alternative0 result with
  | Normal alternative => is_nullish alternative = true
  | Throw _ => True
  end.

End Reading.

(** ** Integers as runtime numbers

    The numbers that are integers, and NaN ([None]).  [int_to_string] is
    Number::toString on the integers below 1e21 in absolute value;
    [int_of_string] reads the empty string and the decimal integer
    literals, and every concrete payload below stays away from the other
    numeric strings. *)

Definition int_to_string (n : option Z) : string :=
  match n with
  | Some z => NilZero.string_of_int (Z.to_int z)
  | None => "NaN"
  end.

Definition int_of_string (s : string) : option Z :=
  if String.eqb s "" then Some 0%Z
  else option_map Z.of_int (NilZero.int_of_string s).

Definition int_truthy (n : option Z) : bool :=
  match n with
  | Some z => negb (Z.eqb z 0)
  | None => false
  end.

Definition int_gt_zero (n : option Z) : bool :=
  match n with
  | Some z => Z.ltb 0 z
  | None => false
  end.

#[export] Instance IntNumber : JSNumber (option Z) := {|
  num_zero := Some 0%Z;
  num_one := Some 1%Z;
  num_nan := None;
  num_of_nat := fun n => Some (Z.of_nat n);
  num_truthy := int_truthy;
  num_gt_zero := int_gt_zero;
  num_to_string := int_to_string;
  string_to_number := int_of_string;
  num_gt_zero_of_nat :=
    fun n => match n with O => eq_refl | S _ => eq_refl end;
  num_gt_zero_nan := eq_refl;
  num_truthy_zero := eq_refl
|}.

(** A JSON value over the integers. *)
Definition json : Type := value (option Z).

Definition num (z : Z) : json := VNum (Some z).

(** [{ results: { channels: [{ alternatives: [alternative] }] } }], with the
    top-level fields [top] after it. *)
Definition payload (alternative : json) (top : list (string * json)) : json :=
  VObj (("results",
         VObj [("channels",
                VArr [VObj [("alternatives", VArr [alternative])]])]) :: top).

Definition clock0 : Clock :=
  {| date_now := 1700000000000; iso_string := "2023-11-14T22:13:20.000Z" |}.

(** The paragraph and the payload of the spec's first scenario. *)
Definition paragraph1 : json :=
  VObj [("speaker", num 0);
        ("sentences", VArr [VObj [("text", VStr "hello")];
                            VObj [("text", VStr "world")]])].

Definition alternative1 : json :=
  VObj [("transcript", VStr "hello world");
        ("paragraphs", VObj [("paragraphs", VArr [paragraph1])])].

Definition scenario1 : json := payload alternative1 [].

(** No paragraphs, a flat transcript: the second scenario. *)
Definition alternative2 : json := VObj [("transcript", VStr "just one line")].

Definition scenario2 : json := payload alternative2 [].

(** [channels] is missing: the third scenario. *)
Definition scenario3 : json := VObj [("results", VObj [])].

(** A summary from the provider: the fourth scenario. *)
Definition alternative4 : json :=
  VObj [("transcript", VStr "budget talk");
        ("summaries", VArr [VObj [("summary", VStr "Meeting covered budget.")]])].

Definition scenario4 : json :=
  payload alternative4 [("metadata", VObj [("duration", num 42)])].

(** An [alternatives[0]] that is an object without any field. *)
Definition bare : json := payload (VObj []) [].

(** An [alternatives[0]] that is a string. *)
Definition string_alternative : json := payload (VStr "oops") [].

(** A [metadata.duration] that is a string. *)
Definition text_duration : json :=
  payload alternative2 [("metadata", VObj [("duration", VStr "12")])].

Definition no_error (result : json) : Reply (option Z) :=
  {| reply_result := result; reply_error := None |}.

(** Two paragraphs of the provider's shape. *)
Definition paragraph2 : json :=
  VObj [("speaker", num 1);
        ("sentences", VArr [VObj [("text", VStr "hi")];
                            VObj [("text", VStr "there")]])].

Definition alternative8 : json :=
  VObj [("transcript", VStr "hello world hi there");
        ("paragraphs", VObj [("paragraphs", VArr [paragraph1; paragraph2])])].

Definition scenario5 : json := payload alternative8 [].

(** A paragraph without [sentences]. *)
Definition alternative9 : json :=
  VObj [("transcript", VStr "hello");
        ("paragraphs",
         VObj [("paragraphs", VArr [VObj [("speaker", num 0)]])])].

(** A paragraph with a sentence without [text], and paragraphs with a null
    among them. *)
Definition paragraph5 : json :=
  VObj [("speaker", num 1);
        ("sentences", VArr [VObj [("text", VStr "hi")]; VObj []])].

Definition alternative5 : json :=
  VObj [("paragraphs", VObj [("paragraphs", VArr [paragraph1; paragraph5])])].

Definition alternative6 : json :=
  VObj [("paragraphs", VObj [("paragraphs", VArr [paragraph1; VNull])])].

(** [paragraphs.paragraphs] is a string. *)
Definition alternative7 : json :=
  VObj [("transcript", VStr "flat");
        ("paragraphs", VObj [("paragraphs", VStr "abc")])].

(** [paragraphs.paragraphs] is a number. *)
Definition alternative10 : json :=
  VObj [("transcript", VStr "flat");
        ("paragraphs", VObj [("paragraphs", num 7)])].

(** A note on display. *)
Definition note1 : json :=
  VObj [("utterances",
         VArr [utterance "Speaker 0" (VStr "Hello World");
               utterance "Speaker 1" (VStr "Good morning")])].

(** ** The rest of the dashboards and of the server *)

Section Dashboards.

Context {Num : Type} {JSN : JSNumber Num}.

(** One call of the capping [handleUpload] after the other; an event is
    the selected file, the answer of the backend and the dashboard's
    clock. *)
Fixpoint run_uploads (events : list (option string * response Num * Clock))
    (state : Dashboard Num) : Dashboard Num :=
  match events with
  | [] => state
  | (file, answer, clock) :: rest =>
      run_uploads rest (handleUpload file answer clock state)
  end.

(** The records that the successful uploads of a run make, oldest first. *)
Definition made_records (events : list (option string * response Num * Clock))
  : list (value Num) :=
  List.flat_map
    (fun event =>
       match event with
       | (Some file_name, Json data, clock) =>
           [new_result data file_name clock]
       | _ => []
       end) events.

(** [handleUpload] of the dashboards that keep everything: the answer is
    shown and stored as it is, and the selection is cleared by
    [setFile(null)]; the [catch] only sets the error message.  The second
    component is the selected file afterwards. *)
Definition handleUpload_keeping (file : option string) (answer : response Num)
    (state : Dashboard Num) : Dashboard Num * option string :=
  match file with
  | None => (state, None)
  | Some _ =>
      match answer with
      | Json data =>
          ({| shown := Some data;
              history := unbounded_history data (history state);
              error := None |}, None)
      | Status _ message _ =>
          ({| shown := shown state;
              history := history state;
              error := Some (if String.eqb message ""
                             then "Connection Error: Is backend running?"
                             else message) |}, file)
      end
  end.

Fixpoint run_uploads_keeping (answers : list (string * response Num))
    (state : Dashboard Num) : Dashboard Num :=
  match answers with
  | [] => state
  | (file, answer) :: rest =>
      run_uploads_keeping rest
        (fst (handleUpload_keeping (Some file) answer state))
  end.

(** The bodies that a run of answers delivered, oldest first. *)
Definition delivered (answers : list (string * response Num))
  : list (value Num) :=
  List.flat_map
    (fun answer =>
       match snd answer with
       | Json data => [data]
       | Status _ _ _ => []
       end) answers.

(** [String.prototype.toLowerCase] on a string whose code units are below
    256: the letters A to Z and the capital letters of Latin-1 (0xC0 to
    0xDE without 0xD7) move up by 32. *)
Definition lower_char (c : ascii) : ascii :=
  let n := nat_of_ascii c in
  if (Nat.leb 65 n && Nat.leb n 90) ||
     (Nat.leb 192 n && Nat.leb n 222 && negb (Nat.eqb n 215))
  then ascii_of_nat (n + 32) else c.

Fixpoint lower (s : string) : string :=
  match s with
  | EmptyString => EmptyString
  | String c rest => String (lower_char c) (lower rest)
  end.

(** [v.toLowerCase()]: only a string has the method. *)
Definition toLowerCase (v : value Num) : completion string :=
  match v with
  | VStr s => Normal (lower s)
  | _ => Throw TypeError
  end.

(** [s.includes(q)] *)
Fixpoint includes (s q : string) : bool :=
  String.prefix q s ||
  match s with
  | EmptyString => false
  | String _ rest => includes rest q
  end.

(** [xs.filter(f)], where [f] may throw. *)
Fixpoint filter_completion {A : Type} (f : A -> completion bool)
    (xs : list A) : completion (list A) :=
  match xs with
  | [] => Normal []
  | x :: rest =>
      keep <- f x ;;
      kept <- filter_completion f rest ;;
      Normal (if keep then x :: kept else kept)
  end.

(** [u => u.text.toLowerCase().includes(searchQuery.toLowerCase()) ||
          u.speaker.toLowerCase().includes(searchQuery.toLowerCase())] *)
Definition utterance_matches (searchQuery : string) (u : value Num)
  : completion bool :=
  text <- get_name u "text" ;;
  lowered <- toLowerCase text ;;
  if includes lowered (lower searchQuery) then Normal true
  else
    speaker <- get_name u "speaker" ;;
    label <- toLowerCase speaker ;;
    Normal (includes label (lower searchQuery)).

(** The utterances that the search can read: [text] and [speaker] are
    strings; and the test that the search makes on them. *)
Definition is_string (v : value Num) : bool :=
  match v with
  | VStr _ => true
  | _ => false
  end.

Definition searchable (u : value Num) : bool :=
  is_string (prop u "text") && is_string (prop u "speaker").

Definition string_of (v : value Num) : string :=
  match v with
  | VStr s => s
  | _ => EmptyString
  end.

Definition found_in (searchQuery : string) (u : value Num) : bool :=
  includes (lower (string_of (prop u "text"))) (lower searchQuery) ||
  includes (lower (string_of (prop u "speaker"))) (lower searchQuery).

(** [result?.utterances.filter(...)]; [None] is the undefined of a
    [result] that is null. *)
Definition filteredUtterances (result : value Num) (searchQuery : string)
  : completion (option (list (value Num))) :=
  if is_nullish result then Normal None
  else
    utterances <- get_name result "utterances" ;;
    match utterances with
    | VArr items =>
        kept <- filter_completion (utterance_matches searchQuery) items ;;
        Normal (Some kept)
    | _ => Throw TypeError
    end.

End Dashboards.

(** A whole number of seconds that a double holds exactly: on these,
    [s / 60] rounds to a double with the same floor, [s % 60] is exact, and
    minutes and seconds print in plain decimal. *)
Record WholeSeconds : Type := {
  seconds_value : Z;
  seconds_safe : Z.ltb (Z.abs seconds_value) (2 ^ 53) = true
}.

(** [formatDuration] on undefined or NaN ([None]) and on a whole number of
    seconds:
    [if (!s) return '0s'; m = Math.floor(s / 60); rs = Math.floor(s % 60);
     return m > 0 ? `${m}m ${rs}s` : `${rs}s`]. *)
Definition formatDuration (s : option WholeSeconds) : string :=
  match s with
  | None => "0s"
  | Some duration =>
      let seconds := seconds_value duration in
      if Z.eqb seconds 0 then "0s"
      else
        let m := Z.div seconds 60 in
        let rs := Z.rem seconds 60 in
        if Z.ltb 0 m
        then time_to_string m ++ "m " ++ time_to_string rs ++ "s"
        else time_to_string rs ++ "s"
  end.

(** The transcript pages of [downloadPdf]: [blocks] are the numbers of
    lines that [splitTextToSize] made of the utterances; the answer says,
    for each block, whether [addPage] came first and at which height the
    block is written. *)
Fixpoint place_blocks (transcriptY : nat) (blocks : list nat)
  : list (bool * nat) :=
  match blocks with
  | [] => []
  | lines :: rest =>
      let overflow := Nat.ltb 280 (transcriptY + lines * 5) in
      let y := if overflow then 20 else transcriptY in
      (overflow, y) :: place_blocks (y + lines * 5 + 3) rest
  end.

Definition transcript_layout (blocks : list nat) : list (bool * nat) :=
  place_blocks 30 blocks.

(** [name.split('.')[0]] *)
Fixpoint before_dot (name : string) : string :=
  match name with
  | EmptyString => EmptyString
  | String c rest =>
      if Ascii.eqb c "." then EmptyString else String c (before_dot rest)
  end.

(** The name under which [downloadPdf] saves. *)
Definition pdf_name (fileName : string) : string :=
  before_dot fileName ++ "_note.pdf".

(** [s.endsWith(suffix)] *)
Definition endsWith (s suffix : string) : bool :=
  let n := String.length s in
  let m := String.length suffix in
  if Nat.leb m n then String.eqb (String.substring (n - m) m s) suffix
  else false.

Definition validTypes : list string :=
  ["audio/mpeg"; "audio/mp3"; "video/mp4"; "audio/wav"; "audio/m4a"].

(** What [handleFileChange] of the first dashboard writes; a file is its
    [type] and its [name]. *)
Record Picker (Num : Type) : Type := {
  picked : option (string * string);
  picker_error : option string;
  picker_result : option (value Num)
}.

Arguments picked {Num} p.
Arguments picker_error {Num} p.
Arguments picker_result {Num} p.

(** [handleFileChange]; [selected] is [e.target.files[0]] when there is
    one. *)
Definition handleFileChange {Num : Type} (selected : option (string * string))
    (state : Picker Num) : Picker Num :=
  match selected with
  | None => state
  | Some (type, name) =>
      if List.existsb (String.eqb type) validTypes
         || endsWith name ".mp3" || endsWith name ".mp4"
      then {| picked := Some (type, name);
              picker_error := None;
              picker_result := None |}
      else {| picked := None;
              picker_error := Some "Please upload a valid MP3 or MP4 file.";
              picker_result := picker_result state |}
  end.

(** The [filename] of multer's disk storage in [server/server.js]:
    [Date.now() + '-' + file.originalname]. *)
Definition stored_name (now : Z) (originalname : string) : string :=
  time_to_string now ++ "-" ++ originalname.

(** The decimal digits, of which a printed natural number is made. *)
Definition is_digit (c : ascii) : bool :=
  let n := nat_of_ascii c in
  Nat.leb 48 n && Nat.leb n 57.

Fixpoint all_digits (s : string) : bool :=
  match s with
  | EmptyString => true
  | String c rest => is_digit c && all_digits rest
  end.

Fixpoint has_dot (s : string) : bool :=
  match s with
  | EmptyString => false
  | String c rest => Ascii.eqb c "." || has_dot rest
  end.

(** ** Paragraphs, read in general *)

Section Paragraphs.

Context {Num : Type} {JSN : JSNumber Num}.

(** The paragraphs on which the mapped arrow does not throw: neither
    undefined nor null, with an array for [sentences] none of whose
    elements is undefined or null. *)
Definition paragraph_readable (p : value Num) : bool :=
  negb (is_nullish p) &&
  match prop p "sentences" with
  | VArr sentences => List.forallb (fun s => negb (is_nullish s)) sentences
  | _ => false
  end.

(** What [join] makes of an element that is a primitive: undefined and
    null count as the empty string. *)
Definition joined_text (v : value Num) : option string :=
  match v with
  | VUndefined | VNull => Some ""
  | _ => primitive_text v
  end.

Fixpoint joined_texts (sentences : list (value Num)) : option (list string) :=
  match sentences with
  | [] => Some []
  | s :: rest =>
      if is_nullish s then None
      else
        match joined_text (prop s "text"), joined_texts rest with
        | Some t, Some ts => Some (t :: ts)
        | _, _ => None
        end
  end.

(** The label and the pieces of text of a paragraph that can be read and
    whose speaker and sentence texts are primitives. *)
Definition paragraph_reads (p : value Num) : option (string * list string) :=
  if is_nullish p then None
  else
    match primitive_text (prop p "speaker"), prop p "sentences" with
    | Some label, VArr sentences =>
        option_map (pair label) (joined_texts sentences)
    | _, _ => None
    end.

(** The values other than arrays that have no [length] above zero: the
    numbers, the booleans and the empty string. *)
Definition lengthless (v : value Num) : bool :=
  match v with
  | VNum _ | VBool _ => true
  | VStr s => String.eqb s ""
  | _ => false
  end.

(** A completion that, when it throws, throws a TypeError. *)
Definition type_error_only {A : Type} (c : completion A) : Prop :=
  match c with
  | Normal _ => True
  | Throw e => e = TypeError
  end.

End Paragraphs.

(** ** Properties of the handlers *)

Section Properties.

Context {Num : Type} {JSN : JSNumber Num}.

Implicit Types (v u p result alt rec : value Num).

Lemma bind_normal {A B : Type} (r : completion A) (k : A -> completion B) b :
  bind r k = Normal b -> exists a, r = Normal a /\ k a = Normal b.
Proof.
  destruct r as [a|e]; cbn; [eauto | discriminate].
Qed.

Lemma get_name_normal v name w :
  get_name v name = Normal w -> is_nullish v = false /\ w = prop v name.
Proof.
  unfold get_name. destruct (is_nullish v); [discriminate|].
  intros [= <-]. auto.
Qed.

Lemma get_index_normal v i w :
  get_index v i = Normal w -> is_nullish v = false /\ w = item v i.
Proof.
  unfold get_index. destruct (is_nullish v); [discriminate|].
  intros [= <-]. auto.
Qed.

Lemma get_name_present v name :
  is_nullish v = false -> get_name v name = Normal (prop v name).
Proof. unfold get_name. now intros ->. Qed.

Lemma get_index_present v i :
  is_nullish v = false -> get_index v i = Normal (item v i).
Proof. unfold get_index. now intros ->. Qed.

Lemma prop_nullish v name : is_nullish v = true -> prop v name = VUndefined.
Proof. now destruct v. Qed.

Lemma item_nullish v i : is_nullish v = true -> item v i = VUndefined.
Proof. now destruct v. Qed.

(** Optional chaining never throws, and reads what [prop] and [item] read. *)
Lemma opt_name_prop v name : opt_name v name = Normal (prop v name).
Proof.
  unfold opt_name, get_name.
  destruct (is_nullish v) eqn:E; [now rewrite prop_nullish | reflexivity].
Qed.

Lemma opt_index_item v i : opt_index v i = Normal (item v i).
Proof.
  unfold opt_index, get_index.
  destruct (is_nullish v) eqn:E; [now rewrite item_nullish | reflexivity].
Qed.

Lemma get_name_throws v name e : get_name v name = Throw e -> e = TypeError.
Proof. unfold get_name. destruct (is_nullish v); congruence. Qed.

Lemma get_index_throws v i e : get_index v i = Throw e -> e = TypeError.
Proof. unfold get_index. destruct (is_nullish v); congruence. Qed.

Lemma truthy_not_nullish v : truthy v = true -> is_nullish v = false.
Proof. now destruct v. Qed.

(** An array prints as its [join()]. *)
Lemma all_normal_map {A B : Type} (f g : A -> completion B) xs :
  (forall x, f x = g x) ->
  all_normal (List.map f xs) = map_completion g xs.
Proof.
  intros E. induction xs as [|x xs IH]; cbn; [reflexivity|].
  now rewrite E, IH.
Qed.

Lemma to_string_array (items : list (value Num)) :
  to_string (VArr items) = array_join "," items.
Proof.
  unfold array_join. cbn [to_string].
  rewrite (all_normal_map _ join_item); [reflexivity|].
  now intros [].
Qed.

(** A primitive prints as the words of ToString say. *)
Lemma to_string_primitive v printed :
  primitive_text v = Some printed -> to_string v = Normal printed.
Proof.
  destruct v as [| |[]| | | |]; cbn; intros [= <-]; reflexivity.
Qed.

(** The path to [alternatives[0]] only succeeds on a result that can be
    read, and only throws a TypeError. *)
Lemma alternative0_result result alt :
  alternative0 result = Normal alt -> is_nullish result = false.
Proof.
  unfold alternative0. intros H.
  apply bind_normal in H as (results & H & _).
  now apply get_name_normal in H.
Qed.

Lemma alternative0_throws result e :
  alternative0 result = Throw e -> e = TypeError.
Proof.
  unfold alternative0, get_name, get_index.
  repeat (match goal with
          | |- context [is_nullish ?x] => destruct (is_nullish x)
          end; cbn); congruence.
Qed.

(** *** The readers, as equations *)

Lemma read_summary_eq alt sentinel :
  is_nullish alt = false ->
  read_summary alt sentinel = Normal (js_or (summary_of alt) (VStr sentinel)).
Proof.
  intros H. unfold read_summary, summary_of.
  rewrite (get_name_present _ _ H). cbn [bind].
  rewrite opt_index_item. cbn [bind].
  rewrite opt_name_prop. reflexivity.
Qed.

Lemma read_duration_eq result :
  is_nullish result = false ->
  read_duration result = Normal (js_or (duration_of result) (VNum num_zero)).
Proof.
  intros H. unfold read_duration, duration_of.
  rewrite (get_name_present _ _ H). cbn [bind].
  rewrite opt_name_prop. reflexivity.
Qed.

Lemma read_model_eq result :
  is_nullish result = false ->
  read_model result =
  Normal (js_or (prop (prop (prop result "metadata") "model_info") "name")
                (VStr "nova-2")).
Proof.
  intros H. unfold read_model.
  rewrite (get_name_present _ _ H). cbn [bind].
  rewrite opt_name_prop. cbn [bind].
  rewrite opt_name_prop. reflexivity.
Qed.

Lemma read_paragraphs_eq result alt :
  alternative0 result = Normal alt ->
  is_nullish alt = false ->
  read_paragraphs result =
  Normal (js_or (prop (prop alt "paragraphs") "paragraphs") (VArr [])).
Proof.
  intros Ha H. unfold read_paragraphs. rewrite Ha. cbn [bind].
  rewrite (get_name_present _ _ H). cbn [bind].
  rewrite opt_name_prop. reflexivity.
Qed.

Lemma read_paragraphs_absent result :
  path_absent result -> read_paragraphs result = Throw TypeError.
Proof.
  unfold path_absent, read_paragraphs.
  destruct (alternative0 result) as [alt|e] eqn:Ha; cbn [bind].
  - intros H. unfold get_name. now rewrite H.
  - intros _. now rewrite (alternative0_throws _ _ Ha).
Qed.

(** *** The transcript *)

Lemma map_completion_pure {A B : Type} (f : A -> completion B) (g : A -> B) xs :
  Forall (fun x => f x = Normal (g x)) xs ->
  map_completion f xs = Normal (List.map g xs).
Proof.
  induction 1 as [|x xs Hx _ IH]; cbn; [reflexivity|].
  rewrite Hx. cbn [bind]. rewrite IH. reflexivity.
Qed.

Lemma join_strings sep (lines : list string) :
  array_join (Num := Num) sep (List.map VStr lines) =
  Normal (String.concat sep lines).
Proof.
  unfold array_join.
  assert (E : map_completion (join_item (Num := Num)) (List.map VStr lines)
              = Normal lines).
  { induction lines as [|l lines IH]; cbn; [reflexivity|].
    now rewrite IH. }
  now rewrite E.
Qed.

Lemma utterance_line_eq speaker (text : value Num) :
  utterance_line (utterance speaker text) =
  (printed <- to_string text ;;
   Normal (VStr ("[" ++ speaker ++ "]: " ++ printed))).
Proof. reflexivity. Qed.

(** The formatted lines of utterances that are object literals of the
    handlers. *)
Lemma utterance_lines_normal (us : list (value Num)) ls :
  Forall (fun u => exists speaker text, u = utterance speaker text) us ->
  map_completion utterance_line us = Normal ls ->
  exists lines, Forall2 formatted us lines /\ ls = List.map VStr lines.
Proof.
  intros Hus. revert ls. induction Hus as [|u us (speaker & text & ->) _ IH];
    cbn [map_completion]; intros ls H.
  - injection H as <-. exists []. split; constructor.
  - apply bind_normal in H as (l & Hl & H).
    apply bind_normal in H as (rest & Hrest & H). injection H as <-.
    destruct (IH _ Hrest) as (lines & Hf & ->).
    rewrite utterance_line_eq in Hl.
    apply bind_normal in Hl as (printed & Hp & Hl). injection Hl as <-.
    exists (("[" ++ speaker ++ "]: " ++ printed)%string :: lines).
    split; [|reflexivity].
    constructor; [|exact Hf].
    exists speaker, printed. cbn [utterance prop lookup String.eqb Ascii.eqb Bool.eqb].
    repeat split; trivial.
    intros p Hprim. apply to_string_primitive in Hprim. congruence.
Qed.

Lemma full_transcript_normal (us : list (value Num)) t :
  Forall (fun u => exists speaker text, u = utterance speaker text) us ->
  full_transcript (VArr us) = Normal t ->
  exists lines,
    Forall2 formatted us lines /\ t = String.concat two_line_feeds lines.
Proof.
  intros Hus H. unfold full_transcript in H. cbn [js_map] in H.
  apply bind_normal in H as (lines' & Hl & Hj).
  apply bind_normal in Hl as (ls & Hls & Hl). injection Hl as <-.
  destruct (utterance_lines_normal _ _ Hus Hls) as (lines & Hf & ->).
  cbn [js_join] in Hj. rewrite join_strings in Hj. injection Hj as <-.
  exists lines. split; [exact Hf|reflexivity].
Qed.

(** Utterances whose texts print give a transcript. *)
Lemma full_transcript_prints (us : list (value Num)) :
  Forall (fun u => exists speaker text printed,
            u = utterance speaker text /\ to_string text = Normal printed) us ->
  exists t, full_transcript (VArr us) = Normal t.
Proof.
  intros Hus. unfold full_transcript. cbn [js_map].
  assert (exists lines, map_completion utterance_line us =
                        Normal (List.map VStr lines)) as (lines & ->).
  { induction Hus as [|u us (speaker & text & printed & -> & Hp) _ (lines & IH)].
    - now exists [].
    - exists (("[" ++ speaker ++ "]: " ++ printed)%string :: lines).
      cbn [map_completion]. rewrite utterance_line_eq, Hp. cbn [bind].
      now rewrite IH. }
  cbn [bind js_join]. rewrite join_strings. eauto.
Qed.

(** *** The utterances *)

Lemma sentence_text_read s t :
  sentence_text s = Some t -> get_name s "text" = Normal (VStr t).
Proof.
  destruct s; try discriminate. cbn.
  destruct (lookup "text" fields); try discriminate.
  now intros [= ->].
Qed.

Lemma all_texts_read sentences texts :
  all_texts sentences = Some texts ->
  map_completion (fun s => get_name s "text") sentences =
  Normal (List.map VStr texts).
Proof.
  revert texts. induction sentences as [|s rest IH]; cbn; intros texts H.
  - now injection H as <-.
  - destruct (sentence_text s) as [t|] eqn:Hs; [|discriminate].
    destruct (all_texts rest) as [ts|]; [|discriminate].
    injection H as <-.
    rewrite (sentence_text_read _ _ Hs). cbn [bind].
    rewrite (IH _ eq_refl). reflexivity.
Qed.

(** A paragraph of the provider's shape, with a primitive for speaker, maps
    to its utterance. *)
Lemma paragraph_utterance_eq p label texts :
  primitive_text (prop p "speaker") = Some label ->
  sentence_texts p = Some texts ->
  paragraph_utterance p =
  Normal (VObj [("speaker", VStr ("Speaker " ++ label));
                ("text", VStr (String.concat " " texts))]).
Proof.
  intros Hl. destruct p; try discriminate. cbn [sentence_texts].
  destruct (lookup "sentences" fields) as [| | | | |sentences|] eqn:Hs;
    try discriminate.
  intros H. unfold paragraph_utterance.
  rewrite !get_name_present by reflexivity. cbn [bind].
  rewrite (to_string_primitive _ _ Hl). cbn [bind prop].
  rewrite Hs. cbn [js_map].
  rewrite (all_texts_read _ _ H). cbn [bind js_join].
  now rewrite join_strings.
Qed.

Lemma paragraph_utterance_labelled p u :
  paragraph_utterance p = Normal u ->
  exists label text, u = utterance ("Speaker" ++ label) (VStr text).
Proof.
  unfold paragraph_utterance. intros H.
  apply bind_normal in H as (speaker & _ & H).
  apply bind_normal in H as (label & _ & H).
  apply bind_normal in H as (? & _ & H).
  apply bind_normal in H as (? & _ & H).
  apply bind_normal in H as (text & _ & H).
  injection H as <-.
  exists (" " ++ label)%string, text. reflexivity.
Qed.

Lemma map_completion_forall {A B : Type} (f : A -> completion B)
    (P : B -> Prop) xs ys :
  (forall x y, f x = Normal y -> P y) ->
  map_completion f xs = Normal ys -> Forall P ys.
Proof.
  intros Hf. revert ys. induction xs as [|x xs IH]; cbn; intros ys H.
  - injection H as <-. constructor.
  - apply bind_normal in H as (y & Hy & H).
    apply bind_normal in H as (rest & Hrest & H).
    injection H as <-. constructor; eauto.
Qed.

Lemma map_completion_length {A B : Type} (f : A -> completion B) xs ys :
  map_completion f xs = Normal ys -> List.length ys = List.length xs.
Proof.
  revert ys. induction xs as [|x xs IH]; cbn; intros ys H.
  - now injection H as <-.
  - apply bind_normal in H as (y & _ & H).
    apply bind_normal in H as (rest & Hrest & H).
    injection H as <-. cbn. f_equal. auto.
Qed.

Lemma gt_zero_length (xs : list (value Num)) :
  gt_zero (prop (VArr xs) "length") =
  Normal (negb (Nat.eqb (List.length xs) 0)).
Proof.
  unfold gt_zero. cbn. now rewrite num_gt_zero_of_nat.
Qed.

(** The two ways by which utterances come about. *)
Lemma read_utterances_cases result utterances :
  read_utterances result = Normal utterances ->
  exists alt,
    alternative0 result = Normal alt /\ is_nullish alt = false /\
    ((exists ps us, ps <> [] /\ utterances = VArr us /\
        map_completion paragraph_utterance ps = Normal us) \/
     utterances = VArr [utterance "Speaker" (prop alt "transcript")]).
Proof.
  unfold read_utterances. intros H.
  apply bind_normal in H as (paragraphs & Hp & H).
  unfold read_paragraphs in Hp.
  apply bind_normal in Hp as (alt & Ha & Hp).
  apply bind_normal in Hp as (wrapper & Hw & _).
  apply get_name_normal in Hw as [Hn _].
  exists alt. split; [exact Ha|]. split; [exact Hn|].
  apply bind_normal in H as (len & Hlen & H).
  apply bind_normal in H as (positive & Hpos & H).
  destruct positive.
  - left. destruct paragraphs as [| | | | |ps|]; try discriminate.
    cbn [js_map] in H.
    apply bind_normal in H as (us & Hus & H). injection H as <-.
    exists ps, us. repeat split; trivial.
    apply get_name_normal in Hlen as [_ ->].
    rewrite gt_zero_length in Hpos. injection Hpos as Hpos.
    intros ->. discriminate.
  - right. rewrite Ha in H. cbn [bind] in H.
    rewrite (get_name_present _ _ Hn) in H. cbn [bind] in H.
    now injection H as <-.
Qed.

(** Utterances, when there are any, are a non-empty array of the handlers'
    object literals, labelled ["Speaker"], read from an [alternatives[0]]
    that is there. *)
Lemma read_utterances_normal result utterances :
  read_utterances result = Normal utterances ->
  exists alt us,
    alternative0 result = Normal alt /\ is_nullish alt = false /\
    utterances = VArr us /\ us <> [] /\
    Forall (fun u => exists label text,
              u = utterance ("Speaker" ++ label) text) us.
Proof.
  intros H.
  destruct (read_utterances_cases _ _ H)
    as (alt & Ha & Hn & [(ps & us & Hne & -> & Hm)| ->]).
  - exists alt, us. repeat split; trivial.
    + apply map_completion_length in Hm. intros ->.
      destruct ps; [contradiction|discriminate].
    + eapply map_completion_forall; [|exact Hm].
      intros p u Hp. cbv beta.
      destruct (paragraph_utterance_labelled _ _ Hp) as (label & text & ->).
      eauto.
  - exists alt. eexists. repeat split; trivial; [discriminate|].
    constructor; [|constructor]. exists "". eauto.
Qed.

Lemma labelled_utterances (us : list (value Num)) :
  Forall (fun u => exists label text,
            u = utterance ("Speaker" ++ label) text) us ->
  Forall (fun u => exists speaker text, u = utterance speaker text) us.
Proof.
  apply Forall_impl. intros u (label & text & ->). eauto.
Qed.

(** *** The two records *)

Lemma api_normalize_eq result alt us t originalname clock :
  alternative0 result = Normal alt ->
  read_utterances result = Normal (VArr us) ->
  full_transcript (VArr us) = Normal t ->
  api_normalize result originalname clock =
  Normal (VObj
    [("id", VStr (time_to_string (date_now clock)));
     ("fileName", VStr originalname);
     ("transcript", VStr t);
     ("utterances", VArr us);
     ("summary", js_or (summary_of alt) (VStr api_sentinel));
     ("bullets", VStr api_bullets);
     ("metadata",
      VObj [("duration", js_or (duration_of result) (VNum num_zero));
            ("model",
             js_or (prop (prop (prop result "metadata") "model_info") "name")
                   (VStr "nova-2"));
            ("processedAt", VStr (iso_string clock))])]).
Proof.
  intros Ha Hu Ht.
  destruct (read_utterances_normal _ _ Hu)
    as (alt' & us' & Ha' & Hn & E & _ & _).
  rewrite Ha in Ha'. injection Ha' as <-.
  unfold api_normalize. rewrite Hu. cbn [bind].
  rewrite Ht. cbn [bind].
  rewrite Ha. cbn [bind].
  rewrite (read_summary_eq _ _ Hn). cbn [bind].
  rewrite (read_duration_eq _ (alternative0_result _ _ Ha)). cbn [bind].
  rewrite (read_model_eq _ (alternative0_result _ _ Ha)). reflexivity.
Qed.

Lemma server_normalize_eq result alt us t :
  alternative0 result = Normal alt ->
  read_utterances result = Normal (VArr us) ->
  full_transcript (VArr us) = Normal t ->
  server_normalize result =
  Normal (VObj
    [("transcript", VStr t);
     ("utterances", VArr us);
     ("summary", js_or (summary_of alt) (VStr server_sentinel));
     ("bullets", VStr server_bullets)]).
Proof.
  intros Ha Hu Ht.
  destruct (read_utterances_normal _ _ Hu)
    as (alt' & us' & Ha' & Hn & E & _ & _).
  rewrite Ha in Ha'. injection Ha' as <-.
  unfold server_normalize. rewrite Hu. cbn [bind].
  rewrite Ht. cbn [bind].
  rewrite Ha. cbn [bind].
  rewrite (read_summary_eq _ _ Hn). reflexivity.
Qed.

Lemma api_normalize_normal result originalname clock rec :
  api_normalize result originalname clock = Normal rec ->
  exists alt us t,
    alternative0 result = Normal alt /\
    read_utterances result = Normal (VArr us) /\
    full_transcript (VArr us) = Normal t.
Proof.
  unfold api_normalize. intros H.
  apply bind_normal in H as (utterances & Hu & H).
  apply bind_normal in H as (t & Ht & _).
  destruct (read_utterances_normal _ _ Hu) as (alt & us & Ha & _ & -> & _).
  eauto 6.
Qed.

Lemma server_normalize_normal result rec :
  server_normalize result = Normal rec ->
  exists alt us t,
    alternative0 result = Normal alt /\
    read_utterances result = Normal (VArr us) /\
    full_transcript (VArr us) = Normal t.
Proof.
  unfold server_normalize. intros H.
  apply bind_normal in H as (utterances & Hu & H).
  apply bind_normal in H as (t & Ht & _).
  destruct (read_utterances_normal _ _ Hu) as (alt & us & Ha & _ & -> & _).
  eauto 6.
Qed.

Lemma api_normalize_throw result originalname clock e :
  read_utterances result = Throw e ->
  api_normalize result originalname clock = Throw e.
Proof. intros H. unfold api_normalize. now rewrite H. Qed.

Lemma server_normalize_throw result e :
  read_utterances result = Throw e -> server_normalize result = Throw e.
Proof. intros H. unfold server_normalize. now rewrite H. Qed.

Lemma api_normalize_unprinted result utterances originalname clock e :
  read_utterances result = Normal utterances ->
  full_transcript utterances = Throw e ->
  api_normalize result originalname clock = Throw e.
Proof. intros Hu Ht. unfold api_normalize. now rewrite Hu; cbn; rewrite Ht. Qed.

Lemma server_normalize_unprinted result utterances e :
  read_utterances result = Normal utterances ->
  full_transcript utterances = Throw e ->
  server_normalize result = Throw e.
Proof. intros Hu Ht. unfold server_normalize. now rewrite Hu; cbn; rewrite Ht. Qed.

(** Both branches of the utterances, from what [alternatives[0]] holds. *)
Lemma read_utterances_paragraphs result alt ps :
  alternative0 result = Normal alt ->
  prop (prop alt "paragraphs") "paragraphs" = VArr ps ->
  ps <> [] ->
  read_utterances result = js_map (VArr ps) paragraph_utterance.
Proof.
  intros Ha Hp Hne.
  assert (Hn : is_nullish alt = false) by (destruct alt; discriminate || reflexivity).
  unfold read_utterances.
  rewrite (read_paragraphs_eq _ _ Ha Hn), Hp. cbn [bind js_or truthy].
  rewrite get_name_present by reflexivity. cbn [bind].
  rewrite gt_zero_length. cbn [bind].
  destruct ps; [contradiction|reflexivity].
Qed.

Lemma read_utterances_fallback result alt :
  alternative0 result = Normal alt ->
  is_nullish alt = false ->
  (is_nullish (prop (prop alt "paragraphs") "paragraphs") = true \/
   prop (prop alt "paragraphs") "paragraphs" = VArr []) ->
  read_utterances result =
  Normal (VArr [utterance "Speaker" (prop alt "transcript")]).
Proof.
  intros Ha Hn Hp.
  assert (E : js_or (prop (prop alt "paragraphs") "paragraphs") (VArr [])
              = VArr []).
  { destruct Hp as [Hp| ->]; [|reflexivity].
    unfold js_or. now destruct (prop (prop alt "paragraphs") "paragraphs"). }
  unfold read_utterances.
  rewrite (read_paragraphs_eq _ _ Ha Hn), E. cbn [bind].
  rewrite get_name_present by reflexivity. cbn [bind].
  rewrite gt_zero_length. cbn [bind List.length Nat.eqb negb].
  rewrite Ha. cbn [bind]. now rewrite (get_name_present _ _ Hn).
Qed.

(** *** The claims on utterances and transcript *)

(** C1, as the code has it.  When [alternatives[0]] holds a non-empty
    [paragraphs.paragraphs] array in which every paragraph is an object
    with a primitive for [speaker] (a number or a string in the provider's
    data) and with an array of objects with a string [text] for
    [sentences], both handlers answer a record whose utterances are as many
    as the paragraphs, in their order; utterance [i] is the object with the
    speaker ["Speaker "] followed by the speaker of paragraph [i] as
    JavaScript prints it, and with the text made of the sentence texts of
    that paragraph joined by single spaces. *)
Theorem paragraphs_become_utterances result alt ps originalname clock :
  alternative0 result = Normal alt ->
  prop (prop alt "paragraphs") "paragraphs" = VArr ps ->
  ps <> [] ->
  Forall (fun p => primitive_text (prop p "speaker") <> None /\
                   sentence_texts p <> None) ps ->
  exists us rec rec',
    api_normalize result originalname clock = Normal rec /\
    prop rec "utterances" = VArr us /\
    server_normalize result = Normal rec' /\
    prop rec' "utterances" = VArr us /\
    List.length us = List.length ps /\
    forall i p, nth_error ps i = Some p ->
      exists label texts,
        primitive_text (prop p "speaker") = Some label /\
        sentence_texts p = Some texts /\
        nth_error us i =
        Some (VObj [("speaker", VStr ("Speaker " ++ label));
                    ("text", VStr (String.concat " " texts))]).
Proof.
  intros Ha Hp Hne Hwf.
  set (shape := fun p : value Num =>
         VObj (Num := Num)
           [("speaker",
             VStr ("Speaker " ++ match primitive_text (prop p "speaker") with
                                 | Some label => label
                                 | None => ""
                                 end));
            ("text",
             VStr (String.concat " "
                     match sentence_texts p with
                     | Some texts => texts
                     | None => []
                     end))]).
  assert (Hu : read_utterances result = Normal (VArr (List.map shape ps))).
  { rewrite (read_utterances_paragraphs _ _ _ Ha Hp Hne). cbn [js_map].
    rewrite (map_completion_pure _ shape); [reflexivity|].
    eapply Forall_impl; [|exact Hwf]. intros p [Hl Hs]. cbv beta in Hl, Hs.
    unfold shape.
    destruct (primitive_text (prop p "speaker")) as [label|] eqn:El;
      [|contradiction].
    destruct (sentence_texts p) as [texts|] eqn:E; [|contradiction].
    now apply paragraph_utterance_eq. }
  destruct (full_transcript_prints (List.map shape ps)) as (t & Ht).
  { apply Forall_forall. intros u Hin.
    apply List.in_map_iff in Hin as (p & <- & _).
    unfold shape. do 3 eexists. split; reflexivity. }
  exists (List.map shape ps). eexists. eexists.
  split; [exact (api_normalize_eq _ _ _ _ _ _ Ha Hu Ht)|].
  split; [reflexivity|].
  split; [exact (server_normalize_eq _ _ _ _ Ha Hu Ht)|].
  split; [reflexivity|].
  split; [apply List.length_map|].
  intros i p Hi.
  rewrite Forall_forall in Hwf.
  destruct (Hwf p (nth_error_In _ _ Hi)) as [Hl Hs]. cbv beta in Hl, Hs.
  destruct (primitive_text (prop p "speaker")) as [label|] eqn:El;
    [|contradiction].
  destruct (sentence_texts p) as [texts|] eqn:E; [|contradiction].
  exists label, texts. repeat split.
  rewrite nth_error_map, Hi. cbn. unfold shape. now rewrite El, E.
Qed.

(** C2, as the code has it.  When [alternatives[0]] is there, its
    [paragraphs.paragraphs] is absent (undefined or null) or an empty array,
    and its [transcript] is absent or a primitive, both handlers answer a
    record with exactly one utterance: the object whose speaker is
    ["Speaker"] and whose text is the [transcript] field as it is, and the
    transcript of the record is ["[Speaker]: "] followed by that field as
    JavaScript prints it.  When the field is absent the text is undefined,
    not the empty string, and the transcript reads
    ["[Speaker]: undefined"]. *)
Theorem fallback_utterance result alt originalname clock printed :
  alternative0 result = Normal alt ->
  is_nullish alt = false ->
  (is_nullish (prop (prop alt "paragraphs") "paragraphs") = true \/
   prop (prop alt "paragraphs") "paragraphs" = VArr []) ->
  primitive_text (prop alt "transcript") = Some printed ->
  exists rec rec',
    api_normalize result originalname clock = Normal rec /\
    prop rec "utterances" =
      VArr [VObj [("speaker", VStr "Speaker");
                  ("text", prop alt "transcript")]] /\
    prop rec "transcript" = VStr ("[Speaker]: " ++ printed) /\
    server_normalize result = Normal rec' /\
    prop rec' "utterances" =
      VArr [VObj [("speaker", VStr "Speaker");
                  ("text", prop alt "transcript")]] /\
    prop rec' "transcript" = VStr ("[Speaker]: " ++ printed) /\
    (prop alt "transcript" = VUndefined -> printed = "undefined").
Proof.
  intros Ha Hn Hp Ht.
  assert (Hu := read_utterances_fallback _ _ Ha Hn Hp).
  assert (Hf : full_transcript
                 (VArr [utterance "Speaker" (prop alt "transcript")]) =
               Normal ("[Speaker]: " ++ printed)%string).
  { unfold full_transcript. cbn [js_map map_completion].
    rewrite utterance_line_eq, (to_string_primitive _ _ Ht). reflexivity. }
  eexists. eexists.
  split; [exact (api_normalize_eq _ _ _ _ _ _ Ha Hu Hf)|].
  split; [reflexivity|]. split; [reflexivity|].
  split; [exact (server_normalize_eq _ _ _ _ Ha Hu Hf)|].
  split; [reflexivity|]. split; [reflexivity|].
  intros E. rewrite E in Ht. now injection Ht as <-.
Qed.

(** C3, as the code has it.  When the path
    [results.channels[0].alternatives[0]] is missing (a step of it throws,
    or it ends on undefined or null), both normalizations throw a TypeError,
    the only kind of error they have, no record is built, and the handler
    answers status 500 with the message ['Error processing audio']. *)
Theorem missing_path_throws result originalname clock :
  path_absent result ->
  api_normalize result originalname clock = Throw TypeError /\
  server_normalize result = Throw TypeError /\
  api_upload (Some originalname)
    {| reply_result := result; reply_error := None |} clock =
  Status 500 "Error processing audio" (Some TypeError) /\
  server_upload (Some originalname)
    {| reply_result := result; reply_error := None |} =
  Status 500 "Error processing audio" (Some TypeError).
Proof.
  intros H.
  assert (Hu : read_utterances result = Throw TypeError).
  { unfold read_utterances. now rewrite (read_paragraphs_absent _ H). }
  assert (Hapi := api_normalize_throw _ originalname clock _ Hu).
  assert (Hsrv := server_normalize_throw _ _ Hu).
  repeat split; trivial.
  - unfold api_upload, check_reply. cbn [reply_error reply_result bind].
    now rewrite Hapi.
  - unfold server_upload, check_reply. cbn [reply_error reply_result bind].
    now rewrite Hsrv.
Qed.


(** C4.  In every record that a handler answers, [transcript] is the join,
    with a blank line (two line feeds) between entries and in the order of
    [utterances], of the record's own utterances, each formatted as
    ["[" + speaker + "]: " + text]. *)
Theorem transcript_recomputable result originalname clock rec :
  api_normalize result originalname clock = Normal rec \/
  server_normalize result = Normal rec ->
  exists us lines,
    prop rec "utterances" = VArr us /\
    Forall2 formatted us lines /\
    prop rec "transcript" = VStr (String.concat two_line_feeds lines).
Proof.
  intros H.
  assert (exists us t,
            read_utterances result = Normal (VArr us) /\
            full_transcript (VArr us) = Normal t /\
            prop rec "utterances" = VArr us /\
            prop rec "transcript" = VStr t)
    as (us & t & Hu & Ht & Hru & Hrt).
  { destruct H as [H|H].
    - destruct (api_normalize_normal _ _ _ _ H) as (alt & us & t & Ha & Hu & Ht).
      rewrite (api_normalize_eq _ _ _ _ _ _ Ha Hu Ht) in H. injection H as <-.
      exists us, t. repeat split; trivial.
    - destruct (server_normalize_normal _ _ H) as (alt & us & t & Ha & Hu & Ht).
      rewrite (server_normalize_eq _ _ _ _ Ha Hu Ht) in H. injection H as <-.
      exists us, t. repeat split; trivial. }
  destruct (read_utterances_normal _ _ Hu)
    as (alt & us' & _ & _ & E & _ & Hl). injection E as <-.
  destruct (full_transcript_normal _ _ (labelled_utterances _ Hl) Ht)
    as (lines & Hf & ->).
  exists us, lines. auto.
Qed.

(** *** The claims on summary, fields and duration *)

Lemma js_or_defined (a b : value Num) :
  b <> VUndefined -> js_or a b <> VUndefined.
Proof.
  unfold js_or. destruct (truthy a) eqn:E; [|trivial].
  intros _ ->. discriminate.
Qed.



(** C6, as the code has it.  The record of [api/index.js] has exactly the
    fields [id], [fileName], [transcript], [utterances], [summary],
    [bullets] and [metadata], the latter with exactly [duration], [model]
    and [processedAt], and none of them is undefined; the record of
    [server/server.js] has only [transcript], [utterances], [summary] and
    [bullets], to which the dashboard adds [id] and [fileName]. *)
Theorem record_fields result originalname clock rec rec' :
  api_normalize result originalname clock = Normal rec ->
  server_normalize result = Normal rec' ->
  keys rec = ["id"; "fileName"; "transcript"; "utterances"; "summary";
              "bullets"; "metadata"] /\
  keys (prop rec "metadata") = ["duration"; "model"; "processedAt"] /\
  Forall (fun k => prop rec k <> VUndefined) (keys rec) /\
  Forall (fun k => prop (prop rec "metadata") k <> VUndefined)
         (keys (prop rec "metadata")) /\
  keys rec' = ["transcript"; "utterances"; "summary"; "bullets"] /\
  forall file_name clock',
    keys (new_result rec' file_name clock') =
    ["transcript"; "utterances"; "summary"; "bullets"; "id"; "fileName"].
Proof.
  intros H H'.
  destruct (api_normalize_normal _ _ _ _ H) as (alt & us & t & Ha & Hu & Ht).
  rewrite (api_normalize_eq _ _ _ _ _ _ Ha Hu Ht) in H. injection H as <-.
  rewrite (server_normalize_eq _ _ _ _ Ha Hu Ht) in H'. injection H' as <-.
  cbn [keys prop lookup List.map fst String.eqb Ascii.eqb Bool.eqb].
  repeat split.
  - repeat constructor;
      cbn [prop lookup String.eqb Ascii.eqb Bool.eqb];
      try discriminate; now apply js_or_defined.
  - repeat constructor;
      cbn [prop lookup String.eqb Ascii.eqb Bool.eqb];
      try discriminate; now apply js_or_defined.
Qed.

(** C7, as the code has it.  The [metadata.duration] of a record is the
    payload's [metadata.duration] whenever that value is truthy (a number
    that is neither 0 nor NaN, but also a non-empty string, [true], an array
    or an object: the value is not checked to be a number), and 0 when it is
    absent or otherwise falsy. *)
Theorem duration_or_zero result originalname clock rec :
  api_normalize result originalname clock = Normal rec ->
  prop (prop rec "metadata") "duration" =
    (if truthy (duration_of result) then duration_of result
     else VNum num_zero) /\
  (forall n, duration_of result = VNum n -> num_truthy n = true ->
     prop (prop rec "metadata") "duration" = VNum n) /\
  (duration_of result = VUndefined ->
     prop (prop rec "metadata") "duration" = VNum num_zero).
Proof.
  intros H.
  destruct (api_normalize_normal _ _ _ _ H) as (alt & us & t & Ha & Hu & Ht).
  rewrite (api_normalize_eq _ _ _ _ _ _ Ha Hu Ht) in H. injection H as <-.
  cbn [prop lookup String.eqb Ascii.eqb Bool.eqb]. unfold js_or.
  repeat split.
  - intros n -> Hn. cbn [truthy]. now rewrite Hn.
  - now intros ->.
Qed.

(** *** The claims on identifiers, the clock and the history *)

Lemma to_int_proper (z : Z) : Z.to_int z <> Decimal.Pos Decimal.Nil /\
                              Z.to_int z <> Decimal.Neg Decimal.Nil.
Proof.
  destruct z as [|q|q]; cbn; split; try discriminate.
  - intros [= E]. now apply (DecimalPos.Unsigned.to_uint_nonnil q).
  - intros [= E]. now apply (DecimalPos.Unsigned.to_uint_nonnil q).
Qed.

(** Printing a time value loses nothing. *)
Lemma time_to_string_inj (a b : Z) :
  time_to_string a = time_to_string b -> a = b.
Proof.
  unfold time_to_string. intros E.
  apply DecimalZ.to_int_inj.
  destruct (to_int_proper a) as [Ha1 Ha2], (to_int_proper b) as [Hb1 Hb2].
  assert (Ea := NilZero.isi _ Ha1 Ha2).
  assert (Eb := NilZero.isi _ Hb1 Hb2).
  rewrite E in Ea. congruence.
Qed.

Lemma lookup_set_field k w (fields : list (string * value Num)) :
  lookup k (set_field k w fields) = w.
Proof.
  induction fields as [|[k' w'] rest IH]; cbn.
  - now rewrite String.eqb_refl.
  - destruct (String.eqb k k') eqn:E; cbn; rewrite ?String.eqb_refl, ?E; auto.
Qed.

Lemma lookup_set_field_other k k' w (fields : list (string * value Num)) :
  String.eqb k k' = false ->
  lookup k (set_field k' w fields) = lookup k fields.
Proof.
  intros Hk. induction fields as [|[k1 w1] rest IH]; cbn.
  - now rewrite Hk.
  - destruct (String.eqb k' k1) eqn:E; cbn.
    + apply String.eqb_eq in E. subst k1. now rewrite Hk.
    + now rewrite IH.
Qed.

Lemma new_result_id data file_name clock :
  prop (new_result data file_name clock) "id" =
  VStr (time_to_string (date_now clock)).
Proof.
  unfold new_result. cbn [prop].
  rewrite lookup_set_field_other by reflexivity.
  apply lookup_set_field.
Qed.

(** C8, as the code has it.  An identifier is the printed millisecond
    clock: two records, of the handler or of the dashboard, have the same
    [id] exactly when they were made at the same reading of [Date.now()],
    so records made at different readings have different identifiers. *)
Theorem ids_follow_the_clock result1 name1 clock1 rec1
    result2 name2 clock2 rec2 :
  api_normalize result1 name1 clock1 = Normal rec1 ->
  api_normalize result2 name2 clock2 = Normal rec2 ->
  (prop rec1 "id" = prop rec2 "id" <-> date_now clock1 = date_now clock2) /\
  (prop (new_result rec1 name1 clock1) "id" =
   prop (new_result rec2 name2 clock2) "id" <->
   date_now clock1 = date_now clock2).
Proof.
  intros H1 H2.
  destruct (api_normalize_normal _ _ _ _ H1) as (alt1 & us1 & t1 & Ha1 & Hu1 & Ht1).
  destruct (api_normalize_normal _ _ _ _ H2) as (alt2 & us2 & t2 & Ha2 & Hu2 & Ht2).
  rewrite !new_result_id.
  rewrite (api_normalize_eq _ _ _ _ _ _ Ha1 Hu1 Ht1) in H1. injection H1 as <-.
  rewrite (api_normalize_eq _ _ _ _ _ _ Ha2 Hu2 Ht2) in H2. injection H2 as <-.
  cbn [prop lookup String.eqb Ascii.eqb Bool.eqb].
  split; (split; [intros [= E]; now apply time_to_string_inj | now intros ->]).
Qed.

(** C9.  Two runs of the normalization on the same payload and file name,
    at any two readings of the clock, either both throw the same exception
    or both answer records with the same [fileName], [transcript],
    [utterances], [summary], [bullets], [metadata.duration] and
    [metadata.model]. *)
Theorem clock_independent result originalname clock1 clock2 :
  match api_normalize result originalname clock1,
        api_normalize result originalname clock2 with
  | Normal rec1, Normal rec2 =>
      Forall (fun k => prop rec1 k = prop rec2 k)
        ["fileName"; "transcript"; "utterances"; "summary"; "bullets"] /\
      Forall (fun k => prop (prop rec1 "metadata") k =
                       prop (prop rec2 "metadata") k)
        ["duration"; "model"]
  | Throw e1, Throw e2 => e1 = e2
  | _, _ => False
  end.
Proof.
  destruct (read_utterances result) as [utterances|e] eqn:Hu.
  - destruct (read_utterances_normal _ _ Hu) as (alt & us & Ha & _ & -> & _).
    destruct (full_transcript (VArr us)) as [t|e] eqn:Ht.
    + rewrite !(api_normalize_eq _ _ _ _ _ _ Ha Hu Ht).
      split; repeat constructor.
    + rewrite !(api_normalize_unprinted _ _ _ _ _ Hu Ht). reflexivity.
  - rewrite !(api_normalize_throw _ _ _ _ Hu). reflexivity.
Qed.

(** The dashboards without a cap keep every record. *)
Lemma unbounded_history_grows data (prev : list (value Num)) :
  List.length (unbounded_history data prev) = S (List.length prev).
Proof. reflexivity. Qed.

(** C10.  After every successful upload in the dashboard that caps its
    history, the history is the new record followed by the 19 most recent
    records of the history before: at most 20 records, the newest first,
    the older ones dropped. *)
Theorem history_capped file_name data clock (state : Dashboard Num) :
  let state' := handleUpload (Some file_name) (Json data) clock state in
  history state' =
    new_result data file_name clock :: List.firstn 19 (history state) /\
  List.length (history state') <= 20 /\
  List.hd_error (history state') = Some (new_result data file_name clock) /\
  shown state' = Some (new_result data file_name clock).
Proof.
  intros state'. subst state'.
  cbn [handleUpload history shown]. unfold capped_history.
  change (List.firstn 20 (new_result data file_name clock :: history state))
    with (new_result data file_name clock :: List.firstn 19 (history state)).
  repeat split.
  cbn [List.length].
  assert (H := List.firstn_le_length 19 (history state)). lia.
Qed.

End Properties.

(** ** The scenarios of the specification, on integer payloads *)

Example scenario1_record :
  api_normalize scenario1 "a.mp3" clock0 =
  Normal (VObj
    [("id", VStr "1700000000000");
     ("fileName", VStr "a.mp3");
     ("transcript", VStr "[Speaker 0]: hello world");
     ("utterances", VArr [utterance "Speaker 0" (VStr "hello world")]);
     ("summary", VStr "Summary not available.");
     ("bullets", VStr "Key insights are included in the summary above.");
     ("metadata", VObj [("duration", num 0);
                        ("model", VStr "nova-2");
                        ("processedAt", VStr "2023-11-14T22:13:20.000Z")])]).
Proof. reflexivity. Qed.

Example scenario2_utterances :
  read_utterances scenario2 =
  Normal (VArr [utterance "Speaker" (VStr "just one line")]).
Proof. reflexivity. Qed.

Example scenario3_throws :
  api_normalize scenario3 "a.mp3" clock0 = Throw TypeError /\
  server_upload (Some "a.mp3") (no_error scenario3) =
  Status 500 "Error processing audio" (Some TypeError).
Proof. split; reflexivity. Qed.

Example scenario4_summary :
  (exists rec, api_normalize scenario4 "a.mp3" clock0 = Normal rec /\
               prop rec "summary" = VStr "Meeting covered budget.") /\
  (exists rec, api_normalize scenario2 "a.mp3" clock0 = Normal rec /\
               prop rec "summary" = VStr "Summary not available.").
Proof. split; eexists; split; reflexivity. Qed.

(** A [paragraphs.paragraphs] that is a non-empty string has a positive
    [length] and no [map]; a paragraph that is null cannot be read. *)
Example paragraphs_string_throws :
  read_utterances
    (payload (VObj [("paragraphs", VObj [("paragraphs", VStr "abc")])]) []) =
  Throw TypeError.
Proof. reflexivity. Qed.

Example null_paragraph_throws :
  read_utterances
    (payload (VObj [("paragraphs", VObj [("paragraphs", VArr [VNull])])]) []) =
  Throw TypeError.
Proof. reflexivity. Qed.

Example provider_error_is_reported :
  api_upload (Some "a.mp3")
    {| reply_result := (VNull : json); reply_error := Some "quota" |} clock0 =
  Status 500 "Error processing audio"
    (Some (DeepgramError "Deepgram Error: quota")).
Proof. reflexivity. Qed.

Example no_file_is_refused :
  api_upload None (no_error scenario1) clock0 =
  Status 400 "No file uploaded" None.
Proof. reflexivity. Qed.

(** ** The theorems at concrete payloads *)

Lemma paragraphs_become_utterances_witness :
  exists rec rec',
    api_normalize scenario5 "a.mp3" clock0 = Normal rec /\
    prop rec "utterances" =
      VArr [VObj [("speaker", VStr "Speaker 0");
                  ("text", VStr "hello world")];
            VObj [("speaker", VStr "Speaker 1");
                  ("text", VStr "hi there")]] /\
    server_normalize scenario5 = Normal rec' /\
    prop rec' "utterances" =
      VArr [VObj [("speaker", VStr "Speaker 0");
                  ("text", VStr "hello world")];
            VObj [("speaker", VStr "Speaker 1");
                  ("text", VStr "hi there")]].
Proof.
  destruct (paragraphs_become_utterances scenario5 alternative8
              [paragraph1; paragraph2] "a.mp3" clock0)
    as (us & rec & rec' & Hr & Hu & Hr' & Hu' & Hlen & Hnth).
  - reflexivity.
  - reflexivity.
  - discriminate.
  - repeat constructor; discriminate.
  - destruct (Hnth 0 paragraph1 eq_refl) as (l0 & t0 & Hl0 & Ht0 & H0).
    destruct (Hnth 1 paragraph2 eq_refl) as (l1 & t1 & Hl1 & Ht1 & H1).
    injection Hl0 as <-. injection Ht0 as <-.
    injection Hl1 as <-. injection Ht1 as <-.
    destruct us as [|u0 [|u1 [|u2 us]]]; try discriminate Hlen.
    injection H0 as ->. injection H1 as ->.
    exists rec, rec'. repeat split; assumption.
Defined.

(** A non-empty sequence of paragraphs of which one has no [sentences]:
    the arrow throws on [p.sentences.map], and no utterances are
    answered. *)
Lemma paragraph_without_sentences_throws :
  alternative0 (payload alternative9 []) = Normal alternative9 /\
  prop (prop alternative9 "paragraphs") "paragraphs" =
    VArr [VObj [("speaker", num 0)]] /\
  api_normalize (payload alternative9 []) "a.mp3" clock0 = Throw TypeError /\
  server_normalize (payload alternative9 []) = Throw TypeError /\
  api_upload (Some "a.mp3") (no_error (payload alternative9 [])) clock0 =
    Status 500 "Error processing audio" (Some TypeError).
Proof.
  repeat split.
Qed.

Lemma fallback_utterance_witness :
  (exists rec rec',
     api_normalize bare "a.mp3" clock0 = Normal rec /\
     prop rec "utterances" =
       VArr [VObj [("speaker", VStr "Speaker"); ("text", VUndefined)]] /\
     prop rec "transcript" = VStr "[Speaker]: undefined" /\
     server_normalize bare = Normal rec' /\
     prop rec' "utterances" =
       VArr [VObj [("speaker", VStr "Speaker"); ("text", VUndefined)]] /\
     prop rec' "transcript" = VStr "[Speaker]: undefined" /\
     (VUndefined = @VUndefined (option Z) -> "undefined" = "undefined")) /\
  (exists rec rec',
     api_normalize scenario2 "a.mp3" clock0 = Normal rec /\
     prop rec "utterances" =
       VArr [VObj [("speaker", VStr "Speaker");
                   ("text", VStr "just one line")]] /\
     prop rec "transcript" = VStr "[Speaker]: just one line" /\
     server_normalize scenario2 = Normal rec' /\
     prop rec' "utterances" =
       VArr [VObj [("speaker", VStr "Speaker");
                   ("text", VStr "just one line")]] /\
     prop rec' "transcript" = VStr "[Speaker]: just one line" /\
     (VStr "just one line" = @VUndefined (option Z) ->
      "just one line" = "undefined")).
Proof.
  split.
  - apply (fallback_utterance bare (VObj []) "a.mp3" clock0 "undefined").
    + reflexivity.
    + reflexivity.
    + left. reflexivity.
    + reflexivity.
  - apply (fallback_utterance scenario2 alternative2 "a.mp3" clock0
             "just one line").
    + reflexivity.
    + reflexivity.
    + left. reflexivity.
    + reflexivity.
Defined.

(** An [alternatives[0]] without [transcript]: the text of the one
    utterance is undefined, where the claim wants the empty string, and the
    transcript reads ["[Speaker]: undefined"]. *)
Lemma fallback_text_is_undefined :
  alternative0 bare = Normal (VObj []) /\
  prop (prop (VObj [] : json) "paragraphs") "paragraphs" = VUndefined /\
  prop (VObj [] : json) "transcript" = VUndefined /\
  exists rec,
    api_normalize bare "a.mp3" clock0 = Normal rec /\
    prop rec "utterances" =
      VArr [VObj [("speaker", VStr "Speaker"); ("text", VUndefined)]] /\
    prop rec "utterances" <>
      VArr [VObj [("speaker", VStr "Speaker"); ("text", VStr "")]] /\
    prop rec "transcript" = VStr "[Speaker]: undefined".
Proof.
  repeat split. eexists. repeat split. discriminate.
Qed.

Lemma missing_path_throws_witness :
  api_normalize scenario3 "a.mp3" clock0 = Throw TypeError /\
  server_normalize scenario3 = Throw TypeError /\
  api_upload (Some "a.mp3") (no_error scenario3) clock0 =
  Status 500 "Error processing audio" (Some TypeError) /\
  server_upload (Some "a.mp3") (no_error scenario3) =
  Status 500 "Error processing audio" (Some TypeError).
Proof.
  apply (missing_path_throws scenario3 "a.mp3" clock0).
  exact I.
Defined.

(** An [alternatives[0]] that is a string, not an object: nothing throws,
    and the handler answers a record. *)
Lemma string_alternative_is_accepted :
  alternative0 string_alternative = Normal (VStr "oops") /\
  exists rec,
    api_normalize string_alternative "a.mp3" clock0 = Normal rec /\
    api_upload (Some "a.mp3") (no_error string_alternative) clock0 = Json rec /\
    prop rec "utterances" = VArr [utterance "Speaker" VUndefined].
Proof.
  split; [reflexivity|]. eexists. repeat split.
Qed.

Lemma transcript_recomputable_witness :
  exists rec,
    api_normalize scenario5 "a.mp3" clock0 = Normal rec /\
    prop rec "transcript" =
      VStr ("[Speaker 0]: hello world" ++
            String "010" (String "010" "[Speaker 1]: hi there")).
Proof.
  edestruct (transcript_recomputable scenario5 "a.mp3" clock0)
    as (us & lines & Hu & Hf & Ht).
  - left. reflexivity.
  - eexists. split; [reflexivity|].
    cbn in Hu. injection Hu as <-.
    inversion Hf as [|u0 l0 us0 ls0 H0 Hf0]; subst; clear Hf.
    inversion Hf0 as [|u1 l1 us1 ls1 H1 Hf1]; subst; clear Hf0.
    inversion Hf1; subst; clear Hf1.
    destruct H0 as (s0 & p0 & Hs0 & Hp0 & _ & ->).
    destruct H1 as (s1 & p1 & Hs1 & Hp1 & _ & ->).
    cbn in Hs0, Hp0, Hs1, Hp1.
    injection Hs0 as <-. injection Hp0 as <-.
    injection Hs1 as <-. injection Hp1 as <-.
    exact Ht.
Defined.


Lemma record_fields_witness :
  exists rec rec',
    api_normalize scenario4 "a.mp3" clock0 = Normal rec /\
    server_normalize scenario4 = Normal rec' /\
    keys rec = ["id"; "fileName"; "transcript"; "utterances"; "summary";
                "bullets"; "metadata"] /\
    keys rec' = ["transcript"; "utterances"; "summary"; "bullets"].
Proof.
  edestruct (record_fields scenario4 "a.mp3" clock0)
    as (Hk & _ & _ & _ & Hk' & _).
  - reflexivity.
  - reflexivity.
  - eexists. eexists.
    split; [reflexivity|]. split; [reflexivity|]. split; eassumption.
Defined.

(** The record of [server/server.js] lacks [id], [fileName] and
    [metadata]. *)
Lemma server_record_has_four_fields :
  exists rec',
    server_normalize scenario1 = Normal rec' /\
    keys rec' = ["transcript"; "utterances"; "summary"; "bullets"] /\
    keys rec' <> ["id"; "fileName"; "transcript"; "utterances"; "summary";
                  "bullets"; "metadata"].
Proof.
  eexists. split; [reflexivity|]. split; [reflexivity|discriminate].
Qed.

Lemma duration_or_zero_witness :
  exists rec,
    api_normalize scenario4 "a.mp3" clock0 = Normal rec /\
    prop (prop rec "metadata") "duration" = num 42.
Proof.
  edestruct (duration_or_zero scenario4 "a.mp3" clock0) as (_ & Hn & _).
  - reflexivity.
  - eexists. split; [reflexivity|].
    exact (Hn (Some 42%Z) eq_refl eq_refl).
Defined.

(** A [metadata.duration] that is the string ["12"] is not a number, and
    is answered as it is, not as 0. *)
Lemma text_duration_is_kept :
  duration_of text_duration = VStr "12" /\
  exists rec,
    api_normalize text_duration "a.mp3" clock0 = Normal rec /\
    prop (prop rec "metadata") "duration" = VStr "12" /\
    prop (prop rec "metadata") "duration" <> VNum num_zero.
Proof.
  split; [reflexivity|]. eexists. repeat split. discriminate.
Qed.

Lemma ids_follow_the_clock_witness :
  exists rec1 rec2,
    api_normalize scenario1 "a.mp3" clock0 = Normal rec1 /\
    api_normalize scenario2 "b.mp3"
      {| date_now := 1700000000001; iso_string := iso_string clock0 |} =
    Normal rec2 /\
    prop rec1 "id" <> prop rec2 "id".
Proof.
  edestruct ids_follow_the_clock
    with (result1 := scenario1) (name1 := "a.mp3") (clock1 := clock0)
         (result2 := scenario2) (name2 := "b.mp3")
         (clock2 := {| date_now := 1700000000001;
                       iso_string := iso_string clock0 |})
    as [[Hid _] _].
  - reflexivity.
  - reflexivity.
  - eexists. eexists.
    split; [reflexivity|]. split; [reflexivity|].
    intros E. apply Hid in E. discriminate E.
Defined.

(** Two uploads answered within the same millisecond: two different
    records, one identifier. *)
Lemma same_millisecond_same_id :
  exists rec1 rec2,
    api_normalize scenario1 "a.mp3" clock0 = Normal rec1 /\
    api_normalize scenario2 "b.mp3" clock0 = Normal rec2 /\
    rec1 <> rec2 /\
    prop rec1 "id" = prop rec2 "id".
Proof.
  eexists. eexists.
  split; [reflexivity|]. split; [reflexivity|].
  split; [discriminate|reflexivity].
Qed.

(** ** More on the handlers *)

Section HandlerProperties.

Context {Num : Type} {JSN : JSNumber Num}.

Implicit Types (v u p result alt rec : value Num).

Lemma type_error_only_bind {A B : Type} (r : completion A)
    (k : A -> completion B) :
  type_error_only r -> (forall a, type_error_only (k a)) ->
  type_error_only (bind r k).
Proof. destruct r as [a|e]; cbn; auto. Qed.

Lemma get_name_type_error v name : type_error_only (get_name v name).
Proof. unfold get_name. now destruct (is_nullish v). Qed.

Lemma get_index_type_error v i : type_error_only (get_index v i).
Proof. unfold get_index. now destruct (is_nullish v). Qed.

Lemma opt_name_type_error v name : type_error_only (opt_name v name).
Proof. now rewrite opt_name_prop. Qed.

Lemma opt_index_type_error v i : type_error_only (opt_index v i).
Proof. now rewrite opt_index_item. Qed.

Lemma map_completion_type_error {A B : Type} (f : A -> completion B) xs :
  (forall x, type_error_only (f x)) -> type_error_only (map_completion f xs).
Proof.
  intros Hf. induction xs as [|x xs IH]; cbn; [exact I|].
  apply type_error_only_bind; [apply Hf|]. intros y.
  apply type_error_only_bind; [exact IH|]. now intros ys.
Qed.

Lemma js_map_type_error v (f : value Num -> completion (value Num)) :
  (forall x, type_error_only (f x)) -> type_error_only (js_map v f).
Proof.
  intros Hf. destruct v; cbn; trivial.
  apply type_error_only_bind; [now apply map_completion_type_error|].
  now intros ys.
Qed.

Lemma all_normal_type_error {A : Type} (cs : list (completion A)) :
  Forall type_error_only cs -> type_error_only (all_normal cs).
Proof.
  induction 1 as [|c cs Hc _ IH]; cbn; [exact I|].
  apply type_error_only_bind; [exact Hc|]. intros x.
  apply type_error_only_bind; [exact IH|]. now intros xs.
Qed.

Lemma to_string_type_error v : type_error_only (to_string v).
Proof.
  revert v. fix IH 1.
  intros [| |[]| | |items|fields]; cbn [to_string]; try exact I.
  - apply type_error_only_bind; [|now intros].
    apply all_normal_type_error.
    induction items as [|x items IHitems]; cbn [List.map]; constructor.
    + assert (Hx := IH x). destruct x; try exact I; exact Hx.
    + exact IHitems.
  - now destruct (has_own "toString" fields).
Qed.

Lemma join_item_type_error v : type_error_only (join_item v).
Proof.
  unfold join_item. destruct (is_nullish v); [exact I|].
  apply to_string_type_error.
Qed.

Lemma array_join_type_error sep (items : list (value Num)) :
  type_error_only (array_join sep items).
Proof.
  unfold array_join. apply type_error_only_bind; [|now intros].
  apply map_completion_type_error, join_item_type_error.
Qed.

Lemma js_join_type_error v sep : type_error_only (js_join v sep).
Proof. destruct v; cbn; trivial. apply array_join_type_error. Qed.

Lemma gt_zero_type_error v : type_error_only (gt_zero v).
Proof.
  unfold gt_zero. apply type_error_only_bind; [|now intros].
  destruct v as [| |[]| | |items|fields]; cbn [to_number]; try exact I;
    (apply type_error_only_bind; [apply to_string_type_error|now intros]).
Qed.

Ltac type_errors :=
  repeat first
    [ exact I
    | apply get_name_type_error | apply get_index_type_error
    | apply opt_name_type_error | apply opt_index_type_error
    | apply js_join_type_error | apply to_string_type_error
    | apply gt_zero_type_error
    | apply js_map_type_error; intros ?
    | apply type_error_only_bind; [|intros ?] ].

Lemma alternative0_type_error result : type_error_only (alternative0 result).
Proof. unfold alternative0. type_errors. Qed.

Lemma paragraph_utterance_type_error p :
  type_error_only (paragraph_utterance p).
Proof. unfold paragraph_utterance. type_errors. Qed.

Lemma utterance_line_type_error u : type_error_only (utterance_line u).
Proof. unfold utterance_line. type_errors. Qed.

Lemma full_transcript_type_error v : type_error_only (full_transcript v).
Proof.
  unfold full_transcript.
  apply type_error_only_bind.
  - apply js_map_type_error, utterance_line_type_error.
  - intros lines. apply js_join_type_error.
Qed.

Lemma read_utterances_type_error result :
  type_error_only (read_utterances result).
Proof.
  unfold read_utterances, read_paragraphs.
  apply type_error_only_bind.
  - apply type_error_only_bind; [apply alternative0_type_error|]. intros ?.
    type_errors.
  - intros paragraphs. apply type_error_only_bind; [type_errors|].
    intros len. apply type_error_only_bind; [apply gt_zero_type_error|].
    intros [].
    + apply js_map_type_error, paragraph_utterance_type_error.
    + apply type_error_only_bind; [apply alternative0_type_error|].
      intros ?. type_errors.
Qed.


Lemma server_normalize_throws result e :
  server_normalize result = Throw e -> e = TypeError.
Proof.
  intros H.
  destruct (read_utterances result) as [utterances|e'] eqn:Hu.
  - destruct (read_utterances_normal _ _ Hu) as (alt & us & Ha & _ & -> & _).
    destruct (full_transcript (VArr us)) as [t|e'] eqn:Ht.
    + rewrite (server_normalize_eq _ _ _ _ Ha Hu Ht) in H. discriminate.
    + rewrite (server_normalize_unprinted _ _ _ Hu Ht) in H.
      injection H as <-.
      assert (Hte := full_transcript_type_error (VArr us)).
      now rewrite Ht in Hte.
  - rewrite (server_normalize_throw _ _ Hu) in H. injection H as <-.
    assert (Hte := read_utterances_type_error result).
    now rewrite Hu in Hte.
Qed.

Lemma missing_path_read result :
  path_absent result ->
  (forall originalname clock,
     api_normalize result originalname clock = Throw TypeError) /\
  server_normalize result = Throw TypeError.
Proof.
  intros H.
  assert (Hu : read_utterances result = Throw TypeError).
  { unfold read_utterances. now rewrite (read_paragraphs_absent _ H). }
  split; [intros; now apply api_normalize_throw|].
  now apply server_normalize_throw.
Qed.

(** *** What the handlers answer *)


(** What [server/server.js] answers, with the two file-system calls and
    the awaited call that stand inside its [try]: 400 when no file came;
    500 with the message of [fs.readFileSync] when the stored upload cannot
    be read; 500 with what the call of the provider rejected with; 500 with
    the provider's message when the call resolved to an error; 500 with a
    TypeError when the reshaping threw; 500 with the message of
    [fs.unlinkSync] when the upload cannot be removed, although the
    reshaping went through; and the body otherwise.  The stored upload is
    removed exactly when the body is answered: every failure leaves it on
    the disk. *)
Theorem server_upload_answers file disk (call : Call (Num := Num)) :
  match server_upload_fs file disk call with
  | (Json body, removed) =>
      removed = true /\ file <> None /\
      read_error disk = None /\ unlink_error disk = None /\
      exists reply,
        call = Resolved reply /\ reply_error reply = None /\
        server_normalize (reply_result reply) = Normal body
  | (Status code message err, removed) =>
      removed = false /\
      ((file = None /\ code = 400 /\ message = "No file uploaded" /\
        err = None) \/
       (code = 500 /\ message = "Error processing audio" /\ file <> None /\
        ((exists m, read_error disk = Some m /\ err = Some (FileError m)) \/
         (read_error disk = None /\
          exists m, call = Rejected m /\ err = Some (Rejection m)) \/
         (read_error disk = None /\
          exists reply m,
            call = Resolved reply /\ reply_error reply = Some m /\
            err = Some (DeepgramError ("Deepgram Error: " ++ m))) \/
         (read_error disk = None /\
          exists reply,
            call = Resolved reply /\ reply_error reply = None /\
            err = Some TypeError /\
            server_normalize (reply_result reply) = Throw TypeError) \/
         (read_error disk = None /\
          exists reply body m,
            call = Resolved reply /\ reply_error reply = None /\
            server_normalize (reply_result reply) = Normal body /\
            unlink_error disk = Some m /\ err = Some (FileError m)))))
  end.
Proof.
  destruct file as [name|]; cbn [server_upload_fs];
    [|split; [reflexivity|left; auto]].
  unfold server_try, fs_call.
  destruct (read_error disk) as [mr|] eqn:Hr.
  { cbn [respond]. split; [reflexivity|]. right.
    repeat split; [discriminate|]. left. eauto. }
  destruct call as [reply|mc]; cbn [await bind].
  2:{ cbn [respond]. split; [reflexivity|]. right.
      repeat split; [discriminate|]. right. left. eauto. }
  unfold check_reply.
  destruct (reply_error reply) as [m|] eqn:Hm; cbn [bind].
  { cbn [respond]. split; [reflexivity|]. right.
    repeat split; [discriminate|]. right. right. left. eauto 6. }
  destruct (server_normalize (reply_result reply)) as [body|e] eqn:H.
  - destruct (unlink_error disk) as [mu|] eqn:Hu; cbn [respond].
    + split; [reflexivity|]. right. repeat split; [discriminate|].
      right. right. right. right. split; [reflexivity|].
      exists reply, body, mu. auto.
    + repeat split; [discriminate|]. exists reply. auto.
  - cbn [respond]. pose proof (server_normalize_throws _ _ H) as ->.
    split; [reflexivity|]. right. repeat split; [discriminate|].
    right. right. right. left. split; [reflexivity|].
    exists reply. auto.
Qed.

(** On a disk that does not fail and for a call that resolves, the handler
    answers what [server_upload] answers. *)
Lemma server_upload_fs_sound file (reply : Reply Num) :
  fst (server_upload_fs file {| read_error := None; unlink_error := None |}
         (Resolved reply)) =
  server_upload file reply.
Proof.
  destruct file as [name|]; [|reflexivity].
  cbn [server_upload_fs server_upload]. unfold server_try.
  cbn [fs_call read_error unlink_error await bind].
  now destruct (bind (check_reply reply) (fun result => server_normalize result)).
Qed.

(** The two backends agree: on every payload both throw the same exception
    or both answer, with the same utterances and transcript, and with the
    same summary unless each answers its own sentinel. *)
Theorem handlers_agree result originalname clock :
  match api_normalize result originalname clock, server_normalize result with
  | Normal rec, Normal rec' =>
      prop rec "utterances" = prop rec' "utterances" /\
      prop rec "transcript" = prop rec' "transcript" /\
      (prop rec "summary" = prop rec' "summary" \/
       (prop rec "summary" = VStr api_sentinel /\
        prop rec' "summary" = VStr server_sentinel))
  | Throw e, Throw e' => e = e'
  | _, _ => False
  end.
Proof.
  destruct (read_utterances result) as [utterances|e] eqn:Hu.
  - destruct (read_utterances_normal _ _ Hu) as (alt & us & Ha & _ & -> & _).
    destruct (full_transcript (VArr us)) as [t|e] eqn:Ht.
    + rewrite (api_normalize_eq _ _ _ _ _ _ Ha Hu Ht),
        (server_normalize_eq _ _ _ _ Ha Hu Ht).
      cbn [prop lookup String.eqb Ascii.eqb Bool.eqb].
      repeat split. unfold js_or.
      destruct (truthy (summary_of alt)); auto.
    + now rewrite (api_normalize_unprinted _ _ _ _ _ Hu Ht),
        (server_normalize_unprinted _ _ _ Hu Ht).
  - now rewrite (api_normalize_throw _ _ _ _ Hu), (server_normalize_throw _ _ Hu).
Qed.

(** The [metadata.model] of a record is the payload's
    [metadata.model_info.name] when that is truthy, and ["nova-2"]
    otherwise. *)
Theorem model_or_default result originalname clock rec :
  api_normalize result originalname clock = Normal rec ->
  prop (prop rec "metadata") "model" =
    (if truthy (prop (prop (prop result "metadata") "model_info") "name")
     then prop (prop (prop result "metadata") "model_info") "name"
     else VStr "nova-2").
Proof.
  intros H.
  destruct (api_normalize_normal _ _ _ _ H) as (alt & us & t & Ha & Hu & Ht).
  rewrite (api_normalize_eq _ _ _ _ _ _ Ha Hu Ht) in H. injection H as <-.
  reflexivity.
Qed.

(** *** Invariants of the utterances *)

Lemma record_utterances result originalname clock rec :
  api_normalize result originalname clock = Normal rec \/
  server_normalize result = Normal rec ->
  exists us t,
    read_utterances result = Normal (VArr us) /\
    full_transcript (VArr us) = Normal t /\
    prop rec "utterances" = VArr us /\
    prop rec "transcript" = VStr t.
Proof.
  intros [H|H].
  - destruct (api_normalize_normal _ _ _ _ H) as (alt & us & t & Ha & Hu & Ht).
    rewrite (api_normalize_eq _ _ _ _ _ _ Ha Hu Ht) in H. injection H as <-.
    exists us, t. repeat split; trivial.
  - destruct (server_normalize_normal _ _ H) as (alt & us & t & Ha & Hu & Ht).
    rewrite (server_normalize_eq _ _ _ _ Ha Hu Ht) in H. injection H as <-.
    exists us, t. repeat split; trivial.
Qed.

(** No record has an empty list of utterances. *)
Theorem utterances_never_empty result originalname clock rec :
  api_normalize result originalname clock = Normal rec \/
  server_normalize result = Normal rec ->
  exists u us, prop rec "utterances" = VArr (u :: us).
Proof.
  intros H.
  destruct (record_utterances _ _ _ _ H) as (us & t & Hu & _ & Hr & _).
  rewrite Hr.
  destruct (read_utterances_normal _ _ Hu) as (alt & us' & _ & _ & E & Hne & _).
  injection E as <-.
  destruct us as [|u us]; [contradiction|eauto].
Qed.


(** The transcript of a record is never empty: it begins with
    ["[Speaker"]. *)
Theorem transcript_begins_with_speaker result originalname clock rec :
  api_normalize result originalname clock = Normal rec \/
  server_normalize result = Normal rec ->
  exists rest, prop rec "transcript" = VStr ("[Speaker" ++ rest).
Proof.
  intros H.
  destruct (record_utterances _ _ _ _ H) as (us & t & Hu & Ht & _ & ->).
  destruct (read_utterances_normal _ _ Hu) as (alt & us' & _ & _ & E & Hne & Hl).
  injection E as <-.
  destruct (full_transcript_normal _ _ (labelled_utterances _ Hl) Ht)
    as (lines & Hf & ->).
  destruct Hf as [|u line us lines Hline Hf]; [contradiction|].
  apply Forall_inv in Hl. destruct Hl as (label & text & ->).
  destruct Hline as (speaker & printed & Hs & _ & _ & ->).
  cbn [utterance prop lookup String.eqb Ascii.eqb Bool.eqb] in Hs.
  injection Hs as <-.
  destruct lines as [|line lines].
  - exists (label ++ "]: " ++ printed)%string. reflexivity.
  - exists ((label ++ "]: " ++ printed) ++
            two_line_feeds ++ String.concat two_line_feeds (line :: lines))%string.
    reflexivity.
Qed.

(** *** Paragraphs that can and cannot be read *)

Lemma sentences_read (sentences : list (value Num)) :
  List.forallb (fun s => negb (is_nullish s)) sentences = true ->
  map_completion (fun s => get_name s "text") sentences =
  Normal (List.map (fun s => prop s "text") sentences).
Proof.
  induction sentences as [|s rest IH]; cbn; [reflexivity|].
  intros H. apply andb_prop in H as [Hs Hrest].
  apply negb_true_iff in Hs.
  rewrite (get_name_present _ _ Hs). cbn [bind].
  rewrite (IH Hrest). reflexivity.
Qed.

Lemma sentences_unread (sentences : list (value Num)) :
  List.forallb (fun s => negb (is_nullish s)) sentences = false ->
  map_completion (fun s => get_name s "text") sentences = Throw TypeError.
Proof.
  induction sentences as [|s rest IH]; cbn; [discriminate|].
  unfold get_name at 1. destruct (is_nullish s); cbn; [reflexivity|].
  intros H. now rewrite (IH H).
Qed.

Lemma paragraph_utterance_unreadable p :
  paragraph_readable p = false ->
  paragraph_utterance p = Throw TypeError.
Proof.
  unfold paragraph_readable, paragraph_utterance.
  destruct (is_nullish p) eqn:Hp; cbn [negb andb].
  - intros _. unfold get_name at 1. now rewrite Hp.
  - rewrite !(get_name_present _ _ Hp). cbn [bind].
    assert (Hte := to_string_type_error (prop p "speaker")).
    destruct (to_string (prop p "speaker")) as [label|e]; cbn [bind];
      [|cbn in Hte; now subst e].
    destruct (prop p "sentences") as [| | | | |sentences|]; try reflexivity.
    intros H. cbn [js_map]. now rewrite (sentences_unread _ H).
Qed.

Lemma paragraphs_unread ps :
  List.forallb paragraph_readable ps = false ->
  map_completion paragraph_utterance ps = Throw TypeError.
Proof.
  induction ps as [|p ps IH]; cbn [List.forallb map_completion];
    [discriminate|].
  intros H.
  assert (Hte := paragraph_utterance_type_error p).
  destruct (paragraph_utterance p) as [u|e] eqn:Hu; cbn [bind];
    [|cbn in Hte; now subst e].
  destruct (paragraph_readable p) eqn:Hp; cbn [andb] in H.
  - now rewrite (IH H).
  - rewrite (paragraph_utterance_unreadable _ Hp) in Hu. discriminate.
Qed.

Lemma joined_text_read v t : joined_text v = Some t -> join_item v = Normal t.
Proof.
  unfold joined_text, join_item.
  destruct v as [| |[]| | | |]; cbn; intros [= <-]; reflexivity.
Qed.

Lemma joined_texts_read (sentences : list (value Num)) texts :
  joined_texts sentences = Some texts ->
  map_completion (fun s => get_name s "text") sentences =
    Normal (List.map (fun s => prop s "text") sentences) /\
  map_completion join_item (List.map (fun s => prop s "text") sentences) =
    Normal texts.
Proof.
  revert texts.
  induction sentences as [|s rest IH]; cbn [joined_texts]; intros texts H.
  - injection H as <-. split; reflexivity.
  - destruct (is_nullish s) eqn:Hs; [discriminate|].
    destruct (joined_text (prop s "text")) as [t|] eqn:Et; [|discriminate].
    destruct (joined_texts rest) as [ts|]; [|discriminate].
    injection H as <-.
    destruct (IH _ eq_refl) as [IH1 IH2].
    cbn [map_completion List.map].
    rewrite (get_name_present _ _ Hs), IH1. cbn [bind].
    rewrite (joined_text_read _ _ Et), IH2. split; reflexivity.
Qed.

Lemma paragraph_reads_utterance p label texts :
  paragraph_reads p = Some (label, texts) ->
  paragraph_utterance p =
  Normal (VObj [("speaker", VStr ("Speaker " ++ label));
                ("text", VStr (String.concat " " texts))]).
Proof.
  unfold paragraph_reads.
  destruct (is_nullish p) eqn:Hp; [discriminate|].
  destruct (primitive_text (prop p "speaker")) as [l|] eqn:El; [|discriminate].
  destruct (prop p "sentences") as [| | | | |sentences|] eqn:Es;
    try discriminate.
  destruct (joined_texts sentences) as [ts|] eqn:Et; [|discriminate].
  cbn [option_map]. intros [= <- <-].
  destruct (joined_texts_read _ _ Et) as [H1 H2].
  unfold paragraph_utterance.
  rewrite !(get_name_present _ _ Hp). cbn [bind].
  rewrite (to_string_primitive _ _ El). cbn [bind].
  rewrite Es. cbn [js_map]. rewrite H1. cbn [bind js_join].
  unfold array_join. rewrite H2. reflexivity.
Qed.

(** One paragraph that cannot be read fails the whole request: when the
    paragraphs hold an undefined or null entry, a paragraph whose
    [sentences] is not an array, or a sentence that is undefined or null,
    both normalizations throw a TypeError and no utterance is answered. *)
Theorem unreadable_paragraph_throws result alt ps originalname clock :
  alternative0 result = Normal alt ->
  prop (prop alt "paragraphs") "paragraphs" = VArr ps ->
  List.forallb paragraph_readable ps = false ->
  api_normalize result originalname clock = Throw TypeError /\
  server_normalize result = Throw TypeError.
Proof.
  intros Ha Hp Hr.
  assert (Hne : ps <> []) by (intros ->; discriminate).
  assert (Hu : read_utterances result = Throw TypeError).
  { rewrite (read_utterances_paragraphs _ _ _ Ha Hp Hne). cbn [js_map].
    now rewrite (paragraphs_unread _ Hr). }
  split.
  - now apply api_normalize_throw.
  - now apply server_normalize_throw.
Qed.

(** The utterances of paragraphs that can be read, in general: when every
    paragraph is an object or another value that is neither undefined nor
    null, with a primitive for [speaker] and with an array for [sentences]
    whose elements are neither undefined nor null and have a primitive or
    no [text], both handlers answer, and utterance [i] is the object whose
    speaker is ["Speaker "] followed by the printed speaker of paragraph
    [i], and whose text is the sentences' texts joined by single spaces,
    where a missing or null text counts as the empty string.  The text of
    such an utterance is always a string. *)
Theorem readable_paragraphs_map result alt ps originalname clock :
  alternative0 result = Normal alt ->
  prop (prop alt "paragraphs") "paragraphs" = VArr ps ->
  ps <> [] ->
  Forall (fun p => paragraph_reads p <> None) ps ->
  exists us rec rec',
    api_normalize result originalname clock = Normal rec /\
    prop rec "utterances" = VArr us /\
    server_normalize result = Normal rec' /\
    prop rec' "utterances" = VArr us /\
    Forall2 (fun p u =>
               exists label texts,
                 paragraph_reads p = Some (label, texts) /\
                 u = VObj [("speaker", VStr ("Speaker " ++ label));
                           ("text", VStr (String.concat " " texts))])
            ps us.
Proof.
  intros Ha Hp Hne Hr.
  assert (exists us,
            map_completion paragraph_utterance ps = Normal us /\
            Forall2 (fun p u =>
               exists label texts,
                 paragraph_reads p = Some (label, texts) /\
                 u = VObj [("speaker", VStr ("Speaker " ++ label));
                           ("text", VStr (String.concat " " texts))])
              ps us) as (us & Hm & Hf).
  { clear Hp Hne. induction Hr as [|p ps Hp _ (us & Hm & Hf)].
    - exists []. split; [reflexivity|constructor].
    - destruct (paragraph_reads p) as [[label texts]|] eqn:E;
        [|contradiction].
      eexists. split.
      + cbn [map_completion].
        rewrite (paragraph_reads_utterance _ _ _ E), Hm. reflexivity.
      + constructor; [|exact Hf]. eauto. }
  assert (Hu : read_utterances result = Normal (VArr us)).
  { rewrite (read_utterances_paragraphs _ _ _ Ha Hp Hne). cbn [js_map].
    now rewrite Hm. }
  destruct (full_transcript_prints us) as (t & Ht).
  { clear -Hf. induction Hf as [|p u ps us (label & texts & _ & ->) _ IH];
      constructor; [|exact IH].
    do 3 eexists. split; reflexivity. }
  exists us. eexists. eexists.
  split; [exact (api_normalize_eq _ _ _ _ _ _ Ha Hu Ht)|].
  split; [reflexivity|].
  split; [exact (server_normalize_eq _ _ _ _ Ha Hu Ht)|].
  split; [reflexivity|exact Hf].
Qed.

End HandlerProperties.

(** ** The dashboards *)

Section DashboardProperties.

Context {Num : Type} {JSN : JSNumber Num}.

Lemma firstn_app_firstn {A : Type} n (xs ys : list A) :
  List.firstn n (xs ++ List.firstn n ys) = List.firstn n (xs ++ ys).
Proof.
  rewrite !List.firstn_app, List.firstn_firstn.
  f_equal. f_equal. lia.
Qed.

(** Over any run of uploads the capped history is, once an upload has
    succeeded, the 20 newest of the records made and the records held
    before, newest first; failed uploads and uploads without a file leave
    it as it is. *)
Theorem capped_history_of_run events (state : Dashboard Num) :
  history (run_uploads events state) =
  match made_records events with
  | [] => history state
  | _ :: _ =>
      List.firstn 20 (List.rev (made_records events) ++ history state)
  end.
Proof.
  revert state. induction events as [|[[file answer] clock] rest IH];
    intros state; [reflexivity|].
  cbn [run_uploads]. rewrite IH.
  destruct file as [file_name|], answer as [data|code message err];
    cbn [handleUpload history made_records List.flat_map List.app];
    fold (made_records rest); try reflexivity.
  unfold capped_history.
  destruct (made_records rest) as [|r made] eqn:E.
  - reflexivity.
  - cbn [List.app]. rewrite firstn_app_firstn.
    cbn [List.rev]. now rewrite <- !List.app_assoc.
Qed.

(** The dashboards without a cap hold, after any run of uploads, every
    body that was answered, newest first, before what they held. *)
Theorem keeping_history_of_run answers (state : Dashboard Num) :
  history (run_uploads_keeping answers state) =
  List.rev (delivered answers) ++ history state.
Proof.
  revert state. induction answers as [|[file answer] rest IH];
    intros state; [reflexivity|].
  cbn [run_uploads_keeping]. rewrite IH.
  destruct answer as [data|code message err];
    cbn [handleUpload_keeping fst snd history delivered List.flat_map
         unbounded_history List.app List.rev];
    fold (delivered rest); [|reflexivity].
  now rewrite <- List.app_assoc.
Qed.

(** The record that the capping dashboard stores has the dashboard's own
    [id] and [fileName], whatever the backend sent under these names, and
    every other field of the answered object unchanged. *)
Theorem new_result_fields fields file_name clock k :
  prop (new_result (VObj fields) file_name clock) k =
  if String.eqb k "fileName" then VStr file_name
  else if String.eqb k "id" then VStr (time_to_string (date_now clock))
  else lookup k fields.
Proof.
  unfold new_result. cbn [prop spread].
  destruct (String.eqb k "fileName") eqn:E1.
  - apply String.eqb_eq in E1. subst k. apply lookup_set_field.
  - rewrite (lookup_set_field_other _ _ _ _ E1).
    destruct (String.eqb k "id") eqn:E2.
    + apply String.eqb_eq in E2. subst k. apply lookup_set_field.
    + apply (lookup_set_field_other _ _ _ _ E2).
Qed.

(** An upload that the backend fails, because the provider reported an
    error or because [alternatives[0]] is missing, changes neither the
    history nor the note on display, and shows the backend's message. *)
Theorem failed_upload_keeps_history file_name (reply : Reply Num) clock
    clock' (state : Dashboard Num) :
  reply_error reply <> None \/ path_absent (reply_result reply) ->
  let after_server :=
    handleUpload (Some file_name) (server_upload (Some file_name) reply)
      clock' state in
  let after_api :=
    handleUpload (Some file_name) (api_upload (Some file_name) reply clock)
      clock' state in
  history after_server = history state /\
  shown after_server = shown state /\
  error after_server = Some "Error processing audio" /\
  history after_api = history state /\
  shown after_api = shown state /\
  error after_api = Some "Error processing audio".
Proof.
  intros H after_server after_api. subst after_server after_api.
  assert (exists e e',
            server_upload (Some file_name) reply =
              Status 500 "Error processing audio" (Some e) /\
            api_upload (Some file_name) reply clock =
              Status 500 "Error processing audio" (Some e'))
    as (e & e' & -> & ->).
  { unfold server_upload, api_upload, check_reply.
    destruct (reply_error reply) as [m|] eqn:Hm; cbn [bind respond].
    - eauto.
    - destruct H as [H|H]; [contradiction|].
      destruct (missing_path_read _ H) as [-> ->]. cbn [respond]. eauto. }
  repeat split.
Qed.

(** *** The search in the transcript *)

Lemma prefix_empty s : String.prefix "" s = true.
Proof. now destruct s. Qed.

Lemma includes_empty s : includes s "" = true.
Proof. destruct s; cbn; now rewrite ?prefix_empty. Qed.

Lemma prefix_append w b : String.prefix w (w ++ b) = true.
Proof.
  induction w as [|c w IH]; cbn; [apply prefix_empty|].
  destruct (ascii_dec c c); [exact IH|contradiction].
Qed.

Lemma includes_append a w b : includes (a ++ w ++ b) w = true.
Proof.
  induction a as [|c a IH].
  - cbn [String.append]. destruct w as [|x w]; [apply includes_empty|].
    cbn [includes String.append].
    change (String x (w ++ b)) with (String x w ++ b)%string.
    now rewrite prefix_append.
  - cbn [String.append includes]. rewrite IH. apply orb_true_r.
Qed.

Lemma lower_append a b : lower (a ++ b) = (lower a ++ lower b)%string.
Proof. induction a as [|c a IH]; cbn; [reflexivity|now rewrite IH]. Qed.

Lemma utterance_matches_searchable q (u : value Num) :
  searchable u = true -> utterance_matches q u = Normal (found_in q u).
Proof.
  unfold searchable, utterance_matches, found_in. intros H.
  apply andb_prop in H as [Ht Hs].
  assert (Hn : is_nullish u = false) by (now destruct u).
  rewrite !(get_name_present _ _ Hn). cbn [bind].
  destruct (prop u "text") as [| | | |text| |]; try discriminate.
  destruct (prop u "speaker") as [| | | |speaker| |]; try discriminate.
  cbn [toLowerCase bind string_of].
  now destruct (includes (lower text) (lower q)).
Qed.

Lemma utterance_matches_unreadable q (u : value Num) :
  is_string (prop u "text") = false -> utterance_matches q u = Throw TypeError.
Proof.
  unfold utterance_matches, get_name. intros H.
  destruct (is_nullish u); cbn [bind]; [reflexivity|].
  now destruct (prop u "text").
Qed.

Lemma toLowerCase_type_error (v : value Num) : type_error_only (toLowerCase v).
Proof. now destruct v. Qed.

Lemma utterance_matches_type_error q (u : value Num) :
  type_error_only (utterance_matches q u).
Proof.
  unfold utterance_matches.
  apply type_error_only_bind; [apply get_name_type_error|]. intros text.
  apply type_error_only_bind; [apply toLowerCase_type_error|]. intros lowered.
  destruct (includes lowered (lower q)); [exact I|].
  apply type_error_only_bind; [apply get_name_type_error|]. intros speaker.
  apply type_error_only_bind; [apply toLowerCase_type_error|]. now intros.
Qed.

Lemma filter_completion_pure {A : Type} (f : A -> completion bool)
    (g : A -> bool) xs :
  Forall (fun x => f x = Normal (g x)) xs ->
  filter_completion f xs = Normal (List.filter g xs).
Proof.
  induction 1 as [|x xs Hx _ IH]; cbn; [reflexivity|].
  rewrite Hx. cbn [bind]. rewrite IH. reflexivity.
Qed.

Lemma filter_completion_throws {A : Type} (f : A -> completion bool) xs :
  (forall x, type_error_only (f x)) ->
  Exists (fun x => f x = Throw TypeError) xs ->
  filter_completion f xs = Throw TypeError.
Proof.
  intros Hf. induction 1 as [x xs Hx|x xs _ IH]; cbn.
  - now rewrite Hx.
  - assert (Hx := Hf x). destruct (f x) as [keep|e]; cbn in *.
    + now rewrite IH.
    + now subst e.
Qed.

Lemma searchable_filter q (us : list (value Num)) :
  List.forallb searchable us = true ->
  filter_completion (utterance_matches q) us =
  Normal (List.filter (found_in q) us).
Proof.
  intros H. apply filter_completion_pure.
  rewrite List.forallb_forall in H. apply Forall_forall.
  intros u Hu. now apply utterance_matches_searchable, H.
Qed.

Lemma unreadable_filter q (us : list (value Num)) :
  List.forallb (fun u => is_string (prop u "text")) us = false ->
  filter_completion (utterance_matches q) us = Throw TypeError.
Proof.
  intros H. apply filter_completion_throws.
  - apply utterance_matches_type_error.
  - induction us as [|u us IH]; [discriminate|]. cbn in H.
    destruct (is_string (prop u "text")) eqn:Hu.
    + right. now apply IH.
    + left. now apply utterance_matches_unreadable.
Qed.

(** The search finds what is there, whatever the case: when the
    utterances on display have strings for [text] and [speaker], an
    utterance whose text holds the query, in any mix of upper and lower
    case, is among the utterances kept. *)
Theorem search_finds_any_case result us u before word after searchQuery :
  is_nullish result = false ->
  prop result "utterances" = VArr us ->
  List.forallb searchable us = true ->
  In u us ->
  prop u "text" = VStr (before ++ word ++ after) ->
  lower word = lower searchQuery ->
  exists kept,
    filteredUtterances result searchQuery = Normal (Some kept) /\
    In u kept.
Proof.
  intros Hn Hr Hs Hu Ht Hw.
  exists (List.filter (found_in searchQuery) us). split.
  - unfold filteredUtterances. rewrite Hn, (get_name_present _ _ Hn), Hr.
    cbn [bind]. now rewrite (searchable_filter _ _ Hs).
  - apply List.filter_In. split; [exact Hu|].
    unfold found_in. rewrite Ht. cbn [string_of].
    rewrite !lower_append, Hw. rewrite includes_append. reflexivity.
Qed.

(** With the empty query nothing is filtered out. *)
Theorem search_empty_keeps_all result us :
  is_nullish result = false ->
  prop result "utterances" = VArr us ->
  List.forallb searchable us = true ->
  filteredUtterances result "" = Normal (Some us).
Proof.
  intros Hn Hr Hs.
  unfold filteredUtterances. rewrite Hn, (get_name_present _ _ Hn), Hr.
  cbn [bind]. rewrite (searchable_filter _ _ Hs). cbn [bind].
  do 2 f_equal. clear. induction us as [|u us IH]; [reflexivity|].
  cbn [List.filter]. unfold found_in at 1. cbn [lower].
  rewrite includes_empty. cbn [orb]. now rewrite IH.
Qed.

(** One utterance whose [text] is not a string breaks the search: the
    filter throws a TypeError for every query, also for the empty one. *)
Theorem search_throws_without_text result us searchQuery :
  is_nullish result = false ->
  prop result "utterances" = VArr us ->
  List.forallb (fun u => is_string (prop u "text")) us = false ->
  filteredUtterances result searchQuery = Throw TypeError.
Proof.
  intros Hn Hr Hs.
  unfold filteredUtterances. rewrite Hn, (get_name_present _ _ Hn), Hr.
  cbn [bind]. now rewrite (unreadable_filter _ _ Hs).
Qed.

End DashboardProperties.

(** ** Names and durations *)

Lemma uint_all_digits (d : Decimal.uint) :
  all_digits (NilEmpty.string_of_uint d) = true.
Proof. induction d; cbn; auto. Qed.

Lemma time_all_digits (z : Z) :
  (0 <= z)%Z -> all_digits (time_to_string z) = true.
Proof.
  unfold time_to_string. destruct z as [|q|q]; intros H.
  - reflexivity.
  - cbn [Z.to_int NilZero.string_of_int NilZero.string_of_uint].
    destruct (Pos.to_uint q); try apply uint_all_digits. reflexivity.
  - lia.
Qed.

(** A run of digits ends where the first other character stands. *)
Lemma digits_then_other a b c d x y :
  all_digits a = true -> all_digits b = true ->
  is_digit c = false -> is_digit d = false ->
  (a ++ String c x = b ++ String d y)%string ->
  a = b /\ c = d /\ x = y.
Proof.
  revert b. induction a as [|a0 a IH]; intros [|b0 b] Ha Hb Hc Hd E;
    cbn in *.
  - injection E as -> ->. auto.
  - injection E as -> _. apply andb_prop in Hb as [Hb _]. congruence.
  - injection E as -> _. apply andb_prop in Ha as [Ha _]. congruence.
  - injection E as -> E.
    apply andb_prop in Ha as [_ Ha]. apply andb_prop in Hb as [_ Hb].
    destruct (IH b Ha Hb Hc Hd E) as (-> & -> & ->). auto.
Qed.

Lemma formatDuration_positive (a : WholeSeconds) :
  (0 < seconds_value a)%Z ->
  formatDuration (Some a) =
  (if Z.ltb 0 (seconds_value a / 60)
   then time_to_string (seconds_value a / 60) ++ "m " ++
        time_to_string (seconds_value a mod 60) ++ "s"
   else time_to_string (seconds_value a mod 60) ++ "s")%string.
Proof.
  intros Ha. unfold formatDuration.
  rewrite (proj2 (Z.eqb_neq (seconds_value a) 0)) by lia.
  cbv zeta. now rewrite !Z.rem_mod_nonneg by lia.
Qed.

(** Two different positive whole durations, each a number of seconds that
    a double holds exactly, are never displayed alike. *)
Theorem formatDuration_injective (a b : WholeSeconds) :
  (0 < seconds_value a)%Z -> (0 < seconds_value b)%Z ->
  seconds_value a <> seconds_value b ->
  formatDuration (Some a) <> formatDuration (Some b).
Proof.
  intros Ha Hb Hab.
  rewrite (formatDuration_positive a Ha), (formatDuration_positive b Hb).
  destruct a as [a Sa], b as [b Sb]. cbn [seconds_value] in *.
  assert (Hqa := Z.div_pos a 60). assert (Hqb := Z.div_pos b 60).
  assert (Hra := Z.mod_pos_bound a 60). assert (Hrb := Z.mod_pos_bound b 60).
  assert (Ea := Z.div_mod a 60). assert (Eb := Z.div_mod b 60).
  assert (Dqa : all_digits (time_to_string (a / 60)) = true)
    by (apply time_all_digits; lia).
  assert (Dqb : all_digits (time_to_string (b / 60)) = true)
    by (apply time_all_digits; lia).
  assert (Dra : all_digits (time_to_string (a mod 60)) = true)
    by (apply time_all_digits; lia).
  assert (Drb : all_digits (time_to_string (b mod 60)) = true)
    by (apply time_all_digits; lia).
  destruct (Z.ltb 0 (a / 60)) eqn:Qa, (Z.ltb 0 (b / 60)) eqn:Qb;
    cbn [String.append]; intros E.
  - apply digits_then_other in E as (Eq & _ & E); trivial.
    injection E as E.
    apply digits_then_other in E as (Er & _ & _); trivial.
    apply time_to_string_inj in Eq, Er. lia.
  - apply digits_then_other in E as (_ & E & _); trivial. discriminate.
  - apply digits_then_other in E as (_ & E & _); trivial. discriminate.
  - apply digits_then_other in E as (Er & _ & _); trivial.
    apply time_to_string_inj in Er.
    apply Z.ltb_ge in Qa, Qb. lia.
Qed.

(** What is absent, not a number or zero is displayed as ["0s"], and below
    a minute no minutes are displayed. *)
Lemma formatDuration_short (a : WholeSeconds) :
  formatDuration None = "0s" /\
  (seconds_value a = 0%Z -> formatDuration (Some a) = "0s") /\
  ((0 < seconds_value a < 60)%Z ->
   formatDuration (Some a) = (time_to_string (seconds_value a) ++ "s")%string).
Proof.
  split; [reflexivity|]. split.
  - intros E. unfold formatDuration. now rewrite E.
  - intros H. rewrite formatDuration_positive by lia.
    rewrite Z.mod_small, Z.div_small by lia. reflexivity.
Qed.

(** The files that multer stores at or after the epoch get the same name
    only when they have the same original name and arrive within the same
    millisecond. *)
Theorem stored_name_injective t1 name1 t2 name2 :
  (0 <= t1)%Z -> (0 <= t2)%Z ->
  stored_name t1 name1 = stored_name t2 name2 ->
  t1 = t2 /\ name1 = name2.
Proof.
  intros H1 H2. unfold stored_name. cbn [String.append]. intros E.
  apply digits_then_other in E as (Et & _ & En);
    try (now apply time_all_digits); trivial.
  split; [now apply time_to_string_inj|exact En].
Qed.

(** ** The pages of the transcript *)



(** On one page the blocks follow each other without overlap: a block that
    is written without a page break starts 3 below the end of the block
    before it. *)
Theorem transcript_layout_consecutive (blocks : list nat) i lines before after :
  nth_error blocks i = Some lines ->
  nth_error (transcript_layout blocks) i = Some before ->
  nth_error (transcript_layout blocks) (S i) = Some (false, after) ->
  after = snd before + lines * 5 + 3.
Proof.
  unfold transcript_layout. generalize 30. revert i.
  induction blocks as [|l rest IH]; intros i y0 Hb H1 H2.
  - destruct i; discriminate.
  - destruct i as [|i].
    + cbn [nth_error place_blocks] in Hb, H1, H2.
      injection Hb as ->. injection H1 as <-.
      destruct rest as [|l' rest']; [discriminate|].
      cbn [nth_error place_blocks] in H2. injection H2 as Hov <-.
      cbn [snd]. now rewrite Hov.
    + cbn [nth_error place_blocks] in Hb, H1, H2. eapply IH; eassumption.
Qed.

(** ** The names of files *)

Lemma before_dot_append base rest :
  has_dot base = false ->
  before_dot (base ++ String "." rest) = base.
Proof.
  induction base as [|c base IH]; cbn; [reflexivity|].
  destruct (Ascii.eqb c "."); cbn; [discriminate|].
  intros H. now rewrite IH.
Qed.

Lemma before_dot_whole name : has_dot name = false -> before_dot name = name.
Proof.
  induction name as [|c name IH]; cbn; [reflexivity|].
  destruct (Ascii.eqb c "."); cbn; [discriminate|].
  intros H. now rewrite IH.
Qed.

(** The PDF is named after what stands before the first dot of the file
    name: a name without a dot is kept whole, and everything from the first
    dot on is dropped, so that files that differ only after it are saved
    under one name. *)
Theorem pdf_name_drops_extension (base : string) :
  has_dot base = false ->
  pdf_name base = (base ++ "_note.pdf")%string /\
  forall extension,
    pdf_name (base ++ "." ++ extension)%string = (base ++ "_note.pdf")%string.
Proof.
  intros H. unfold pdf_name. split.
  - now rewrite before_dot_whole.
  - intros extension. cbn [String.append]. now rewrite before_dot_append.
Qed.

Lemma string_length_append (a b : string) :
  String.length (a ++ b) = String.length a + String.length b.
Proof. induction a as [|c a IH]; cbn; [reflexivity|now rewrite IH]. Qed.

Lemma substring_whole (b : string) :
  String.substring 0 (String.length b) b = b.
Proof. induction b as [|c b IH]; cbn; [reflexivity|now rewrite IH]. Qed.

Lemma substring_tail (a b : string) :
  String.substring (String.length a) (String.length b) (a ++ b) = b.
Proof. induction a as [|c a IH]; cbn; [apply substring_whole|exact IH]. Qed.

Lemma endsWith_append (a b : string) : endsWith (a ++ b) b = true.
Proof.
  unfold endsWith. rewrite string_length_append.
  rewrite (proj2 (Nat.leb_le _ _)) by lia.
  replace (String.length a + String.length b - String.length b)
    with (String.length a) by lia.
  rewrite substring_tail. apply String.eqb_refl.
Qed.

(** The first dashboard takes every file whose name ends in [.mp3] or
    [.mp4], whatever its type, and every file of a listed type, whatever
    its name; taking a file clears the error and the note on display. *)
Theorem media_files_are_taken {Num : Type} (state : Picker Num)
    (type base name : string) :
  let taken file :=
    {| picked := Some file; picker_error := None;
       picker_result := @None (value Num) |} in
  handleFileChange (Some (type, (base ++ ".mp3")%string)) state =
    taken (type, (base ++ ".mp3")%string) /\
  handleFileChange (Some (type, (base ++ ".mp4")%string)) state =
    taken (type, (base ++ ".mp4")%string) /\
  (In type validTypes ->
   handleFileChange (Some (type, name)) state = taken (type, name)).
Proof.
  intros taken. unfold handleFileChange. repeat split.
  - rewrite endsWith_append. now rewrite orb_true_r.
  - rewrite endsWith_append. now rewrite orb_true_r.
  - intros H.
    assert (E : List.existsb (String.eqb type) validTypes = true).
    { apply List.existsb_exists. exists type. split; [exact H|].
      apply String.eqb_refl. }
    now rewrite E.
Qed.

(** A file of another type whose name ends otherwise is refused: the
    selection is emptied and the message is set, while the note on display
    stays. *)
Theorem other_files_are_refused {Num : Type} (state : Picker Num) type name :
  ~ In type validTypes ->
  endsWith name ".mp3" = false ->
  endsWith name ".mp4" = false ->
  handleFileChange (Some (type, name)) state =
  {| picked := None;
     picker_error := Some "Please upload a valid MP3 or MP4 file.";
     picker_result := picker_result state |}.
Proof.
  intros Ht H3 H4. unfold handleFileChange.
  assert (E : List.existsb (String.eqb type) validTypes = false).
  { destruct (List.existsb (String.eqb type) validTypes) eqn:E; [|reflexivity].
    apply List.existsb_exists in E as (t & Hin & Heq).
    apply String.eqb_eq in Heq. subst t. contradiction. }
  now rewrite E, H3, H4.
Qed.

(** ** Payloads of another kind, and what the dashboard makes of them *)

Section OtherPayloads.

Context {Num : Type} {JSN : JSNumber Num}.

Implicit Types (v u p result alt rec : value Num).

Lemma js_or_array_present v : is_nullish (js_or v (VArr [])) = false.
Proof.
  unfold js_or. destruct (truthy v) eqn:E; [|reflexivity].
  now apply truthy_not_nullish.
Qed.

(** The branch is taken on [length > 0] alone. *)
Lemma read_utterances_without_length result alt :
  alternative0 result = Normal alt ->
  is_nullish alt = false ->
  gt_zero (prop (js_or (prop (prop alt "paragraphs") "paragraphs") (VArr []))
                "length") = Normal false ->
  read_utterances result =
  Normal (VArr [utterance "Speaker" (prop alt "transcript")]).
Proof.
  intros Ha Hn Hl. unfold read_utterances.
  rewrite (read_paragraphs_eq _ _ Ha Hn). cbn [bind].
  rewrite (get_name_present _ _ (js_or_array_present _)). cbn [bind].
  rewrite Hl. cbn [bind]. rewrite Ha. cbn [bind].
  now rewrite (get_name_present _ _ Hn).
Qed.

Lemma read_utterances_with_length result alt :
  alternative0 result = Normal alt ->
  is_nullish alt = false ->
  gt_zero (prop (js_or (prop (prop alt "paragraphs") "paragraphs") (VArr []))
                "length") = Normal true ->
  read_utterances result =
  js_map (js_or (prop (prop alt "paragraphs") "paragraphs") (VArr []))
         paragraph_utterance.
Proof.
  intros Ha Hn Hl. unfold read_utterances.
  rewrite (read_paragraphs_eq _ _ Ha Hn). cbn [bind].
  rewrite (get_name_present _ _ (js_or_array_present _)). cbn [bind].
  now rewrite Hl.
Qed.

Lemma lengthless_length v :
  lengthless v = true ->
  gt_zero (prop (js_or v (VArr [])) "length") = Normal false.
Proof.
  assert (H0 : gt_zero (prop (VArr (@nil (value Num))) "length") =
               Normal false).
  { now rewrite gt_zero_length. }
  assert (Hu : gt_zero (@VUndefined Num) = Normal false).
  { unfold gt_zero. cbn. now rewrite num_gt_zero_nan. }
  destruct v as [| |b|n|s| |]; try discriminate; intros H; unfold js_or;
    cbn [truthy].
  - now destruct b.
  - now destruct (num_truthy n).
  - cbn [lengthless] in H. now rewrite H.
Qed.

(** When [paragraphs.paragraphs] is a number, a boolean or the empty
    string, it has no positive [length], and the handlers answer as if
    there were no paragraphs: with a [transcript] that is absent or a
    primitive, the record has the one utterance whose speaker is
    ["Speaker"] and whose text is that field, and its transcript is
    ["[Speaker]: "] followed by the field as it prints. *)
Theorem paragraphs_of_another_kind result alt originalname clock printed :
  alternative0 result = Normal alt ->
  is_nullish alt = false ->
  lengthless (prop (prop alt "paragraphs") "paragraphs") = true ->
  primitive_text (prop alt "transcript") = Some printed ->
  exists rec rec',
    api_normalize result originalname clock = Normal rec /\
    prop rec "utterances" =
      VArr [VObj [("speaker", VStr "Speaker");
                  ("text", prop alt "transcript")]] /\
    prop rec "transcript" = VStr ("[Speaker]: " ++ printed) /\
    server_normalize result = Normal rec' /\
    prop rec' "utterances" =
      VArr [VObj [("speaker", VStr "Speaker");
                  ("text", prop alt "transcript")]] /\
    prop rec' "transcript" = VStr ("[Speaker]: " ++ printed).
Proof.
  intros Ha Hn Hl Ht.
  assert (Hu := read_utterances_without_length _ _ Ha Hn
                  (lengthless_length _ Hl)).
  assert (Hf : full_transcript
                 (VArr [utterance "Speaker" (prop alt "transcript")]) =
               Normal ("[Speaker]: " ++ printed)%string).
  { unfold full_transcript. cbn [js_map map_completion].
    rewrite utterance_line_eq, (to_string_primitive _ _ Ht). reflexivity. }
  eexists. eexists.
  split; [exact (api_normalize_eq _ _ _ _ _ _ Ha Hu Hf)|].
  split; [reflexivity|]. split; [reflexivity|].
  split; [exact (server_normalize_eq _ _ _ _ Ha Hu Hf)|].
  split; reflexivity.
Qed.

(** When [paragraphs.paragraphs] is a non-empty string, it has a positive
    [length] but no [map]: both normalizations throw a TypeError, whatever
    the flat transcript is. *)
Theorem string_paragraphs_throw result alt s originalname clock :
  alternative0 result = Normal alt ->
  prop (prop alt "paragraphs") "paragraphs" = VStr s ->
  s <> "" ->
  api_normalize result originalname clock = Throw TypeError /\
  server_normalize result = Throw TypeError.
Proof.
  intros Ha Hp Hs.
  assert (Hn : is_nullish alt = false)
    by (destruct alt; discriminate || reflexivity).
  assert (Es : String.eqb s "" = false) by now apply String.eqb_neq.
  assert (Hl : gt_zero (prop (js_or (VStr s) (VArr [])) "length") =
               Normal true).
  { unfold js_or. cbn [truthy]. rewrite Es. cbn [negb prop].
    cbn [String.eqb Ascii.eqb Bool.eqb]. unfold gt_zero. cbn [to_number bind].
    rewrite num_gt_zero_of_nat.
    destruct s; [contradiction|reflexivity]. }
  assert (Hu : read_utterances result = Throw TypeError).
  { rewrite (read_utterances_with_length _ _ Ha Hn); rewrite Hp; trivial.
    unfold js_or. cbn [truthy]. now rewrite Es. }
  split; [now apply api_normalize_throw|now apply server_normalize_throw].
Qed.


End OtherPayloads.

(** ** More theorems at concrete payloads *)

Lemma model_or_default_witness :
  exists rec,
    api_normalize scenario4 "a.mp3" clock0 = Normal rec /\
    prop (prop rec "metadata") "model" = VStr "nova-2".
Proof.
  eexists. split; [reflexivity|].
  apply (model_or_default scenario4 "a.mp3" clock0). reflexivity.
Defined.

Lemma utterances_never_empty_witness :
  exists rec u us,
    server_normalize scenario2 = Normal rec /\
    prop rec "utterances" = VArr (u :: us).
Proof.
  edestruct (utterances_never_empty scenario2 "a.mp3" clock0)
    as (u & us & H).
  - right. reflexivity.
  - eexists. exists u, us. split; [reflexivity|exact H].
Defined.


Lemma transcript_begins_with_speaker_witness :
  exists rec rest,
    api_normalize scenario1 "a.mp3" clock0 = Normal rec /\
    prop rec "transcript" = VStr ("[Speaker" ++ rest).
Proof.
  edestruct (transcript_begins_with_speaker scenario1 "a.mp3" clock0)
    as (rest & H).
  - left. reflexivity.
  - eexists. exists rest. split; [reflexivity|exact H].
Defined.

Lemma unreadable_paragraph_throws_witness :
  api_normalize (payload alternative6 []) "a.mp3" clock0 = Throw TypeError /\
  server_normalize (payload alternative6 []) = Throw TypeError.
Proof.
  apply (unreadable_paragraph_throws (payload alternative6 []) alternative6
           [paragraph1; VNull] "a.mp3" clock0); reflexivity.
Defined.

Lemma readable_paragraphs_map_witness :
  exists rec rec',
    api_normalize (payload alternative5 []) "a.mp3" clock0 = Normal rec /\
    prop rec "utterances" =
      VArr [VObj [("speaker", VStr "Speaker 0");
                  ("text", VStr "hello world")];
            VObj [("speaker", VStr "Speaker 1"); ("text", VStr "hi ")]] /\
    server_normalize (payload alternative5 []) = Normal rec' /\
    prop rec' "utterances" =
      VArr [VObj [("speaker", VStr "Speaker 0");
                  ("text", VStr "hello world")];
            VObj [("speaker", VStr "Speaker 1"); ("text", VStr "hi ")]].
Proof.
  destruct (readable_paragraphs_map (payload alternative5 []) alternative5
              [paragraph1; paragraph5] "a.mp3" clock0)
    as (us & rec & rec' & Hr & Hu & Hr' & Hu' & Hf).
  - reflexivity.
  - reflexivity.
  - discriminate.
  - repeat constructor; discriminate.
  - inversion Hf as [|p0 u0 ps0 us0 H0 Hf0]; subst; clear Hf.
    inversion Hf0 as [|p1 u1 ps1 us1 H1 Hf1]; subst; clear Hf0.
    inversion Hf1; subst; clear Hf1.
    destruct H0 as (l0 & t0 & E0 & ->). destruct H1 as (l1 & t1 & E1 & ->).
    vm_compute in E0, E1.
    injection E0 as <- <-. injection E1 as <- <-.
    exists rec, rec'. repeat split; assumption.
Defined.

(** A stored upload that cannot be removed: the reshaping went through,
    and yet the answer is 500 and the file stays. *)
Example unlink_failure_is_reported :
  server_upload_fs (Some "a.mp3")
    {| read_error := None; unlink_error := Some "EPERM" |}
    (Resolved (no_error scenario1)) =
  (Status 500 "Error processing audio" (Some (FileError "EPERM")), false).
Proof. reflexivity. Qed.

(** A call of the provider that rejects. *)
Example rejected_call_is_reported :
  server_upload_fs (Some "a.mp3")
    {| read_error := None; unlink_error := None |}
    (Rejected (Num := option Z) "socket hang up") =
  (Status 500 "Error processing audio" (Some (Rejection "socket hang up")),
   false).
Proof. reflexivity. Qed.

Lemma failed_upload_keeps_history_witness :
  let state := {| shown := Some note1; history := [note1]; error := None |} in
  history (handleUpload (Some "a.mp3")
             (server_upload (Some "a.mp3") (no_error scenario3))
             clock0 state) = [note1].
Proof.
  intros state.
  apply (failed_upload_keeps_history "a.mp3" (no_error scenario3) clock0
           clock0 state).
  right. exact I.
Defined.

Lemma search_finds_any_case_witness :
  exists kept,
    filteredUtterances note1 "WORLD" = Normal (Some kept) /\
    In (utterance "Speaker 0" (VStr "Hello World")) kept.
Proof.
  apply (search_finds_any_case note1
           [utterance "Speaker 0" (VStr "Hello World");
            utterance "Speaker 1" (VStr "Good morning")]
           (utterance "Speaker 0" (VStr "Hello World"))
           "Hello " "World" "" "WORLD").
  - reflexivity.
  - reflexivity.
  - reflexivity.
  - left. reflexivity.
  - reflexivity.
  - reflexivity.
Defined.

Lemma search_empty_keeps_all_witness :
  filteredUtterances note1 "" =
  Normal (Some [utterance "Speaker 0" (VStr "Hello World");
                utterance "Speaker 1" (VStr "Good morning")]).
Proof.
  apply (search_empty_keeps_all note1); reflexivity.
Defined.

Lemma search_throws_without_text_witness :
  filteredUtterances
    (VObj [("utterances", VArr [utterance "Speaker" VUndefined])] : json)
    "a" = Throw TypeError.
Proof.
  apply (search_throws_without_text _ [utterance "Speaker" VUndefined]);
    reflexivity.
Defined.

Lemma formatDuration_injective_witness :
  formatDuration (Some {| seconds_value := 125; seconds_safe := eq_refl |}) =
    "2m 5s" /\
  formatDuration (Some {| seconds_value := 126; seconds_safe := eq_refl |}) =
    "2m 6s" /\
  formatDuration (Some {| seconds_value := 125; seconds_safe := eq_refl |}) <>
  formatDuration (Some {| seconds_value := 126; seconds_safe := eq_refl |}).
Proof.
  split; [reflexivity|]. split; [reflexivity|].
  apply formatDuration_injective; cbn [seconds_value]; lia.
Defined.

Lemma stored_name_injective_witness :
  (1700000000000 = 1700000000000)%Z /\ "a.mp3" = "a.mp3".
Proof.
  apply (stored_name_injective 1700000000000 "a.mp3" 1700000000000 "a.mp3");
    [lia | lia | reflexivity].
Defined.

Lemma transcript_layout_consecutive_witness : 68 = 30 + 7 * 5 + 3.
Proof.
  apply (transcript_layout_consecutive [7; 4; 50] 0 7 (false, 30) 68);
    reflexivity.
Defined.

Lemma pdf_name_drops_extension_witness :
  pdf_name "meeting" = "meeting_note.pdf" /\
  forall extension,
    pdf_name ("meeting" ++ "." ++ extension)%string = "meeting_note.pdf".
Proof.
  apply (pdf_name_drops_extension "meeting"). reflexivity.
Defined.

Lemma other_files_are_refused_witness :
  handleFileChange (Some ("audio/ogg", "talk.MP3"))
    {| picked := None; picker_error := None; picker_result := Some note1 |} =
  {| picked := None;
     picker_error := Some "Please upload a valid MP3 or MP4 file.";
     picker_result := Some note1 |}.
Proof.
  apply (other_files_are_refused
           {| picked := None; picker_error := None;
              picker_result := Some note1 |} "audio/ogg" "talk.MP3").
  - cbn. intros [H|[H|[H|[H|[H|[]]]]]]; discriminate H.
  - reflexivity.
  - reflexivity.
Defined.

Lemma paragraphs_of_another_kind_witness :
  exists rec rec',
    api_normalize (payload alternative10 []) "a.mp3" clock0 = Normal rec /\
    prop rec "utterances" =
      VArr [VObj [("speaker", VStr "Speaker"); ("text", VStr "flat")]] /\
    prop rec "transcript" = VStr "[Speaker]: flat" /\
    server_normalize (payload alternative10 []) = Normal rec' /\
    prop rec' "utterances" =
      VArr [VObj [("speaker", VStr "Speaker"); ("text", VStr "flat")]] /\
    prop rec' "transcript" = VStr "[Speaker]: flat".
Proof.
  apply (paragraphs_of_another_kind (payload alternative10 []) alternative10
           "a.mp3" clock0 "flat"); reflexivity.
Defined.

Lemma string_paragraphs_throw_witness :
  api_normalize (payload alternative7 []) "a.mp3" clock0 = Throw TypeError /\
  server_normalize (payload alternative7 []) = Throw TypeError.
Proof.
  apply (string_paragraphs_throw (payload alternative7 []) alternative7
           "abc" "a.mp3" clock0); [reflexivity|reflexivity|discriminate].
Defined.

